(** * Standup Raven: config store, submission store and chat commands

    A shallow embedding of
      - server/standup/main.go          (package standup),
      - server/command/add_members.go   (package command),
      - the report command              (package command, trigger "report"),
    with the Mattermost plugin API modelled as an explicit [World] that
    every operation threads through.

    Go values are modelled as follows.
      - [string]                 : [string]
      - [[]string]               : [list string] (a nil slice and an empty
                                   slice are both [[]])
      - [map[string]T]           : [gmap string T]
      - [*[]string]              : [option (list string)], [None] is the
                                   nil pointer
      - [error], [*model.AppError]: [option string], [None] is nil
      - [[]byte] holding JSON    : the document tree [JSON]; the empty byte
                                   slice that [KVGet] returns for a missing
                                   key is the absent entry of the store. *)

From Stdlib Require Import ZArith String Ascii List Bool Lia.
From stdpp Require Import base option gmap strings list fin_maps pretty.

Local Open Scope string_scope.
Local Open Scope Z_scope.
#[local] Set Warnings "-clear-no-such-hyp".

(** ** Values shared by all packages *)

(** A Go [error]; [None] is [nil]. *)
Definition error : Type := option string.

(** The result of running Go code that may dereference a nil pointer or
    fail a type assertion. *)
Inductive Outcome (A : Type) : Type :=
  | Returns (a : A)
  | Panics.
Arguments Returns {A} a.
Arguments Panics {A}.

(** The double quote character, for messages that embed one. *)
Definition dquote : string := String "034"%char EmptyString.

(** JSON documents, as [encoding/json] reads and writes them. *)
#[local] Unset Elimination Schemes.
Inductive JSON : Type :=
  | JNull
  | JBool (b : bool)
  | JNumber (n : Z)
  | JString (s : string)
  | JArray (items : list JSON)
  | JObject (members : list (string * JSON)).
#[local] Set Elimination Schemes.

(** [otime.OTime] embeds a [time.Time]: an instant and the name of the
    location it is displayed in.  The zero value is instant 0 with no
    location. *)
Record OTime : Type := mkOTime {
  instant : Z;
  location : string
}.

Global Instance OTime_eq_dec : EqDecision OTime.
Proof. solve_decision. Defined.

Definition emptyTime : OTime := mkOTime 0 "".

(** [t.After(u)]: the instant of [t] is later than that of [u]. *)
Definition After (t u : OTime) : bool := instant u <? instant t.

(** ** What the code takes from other packages

    The packages [util], [otime], [config] and [notification] of the
    repository, and the Go libraries [time], [strings] and [encoding/json]
    (for [OTime]), are not part of the sources at hand.  The functions
    below use them through this interface. *)
Class Externals : Type := {
  (** [config.ReportFormats] *)
  ReportFormats : list string;
  (** [config.CacheKeyAllStandupChannels] *)
  CacheKeyAllStandupChannels : string;
  (** [config.CacheKeyPrefixTeamStandupConfig] *)
  CacheKeyPrefixTeamStandupConfig : string;
  (** [util.GetKeyHash] *)
  GetKeyHash : string -> string;
  (** [time.LoadLocation]: the offset table of a zone, or an error. *)
  Location : Type;
  LoadLocation : string -> option Location;
  (** [otime.Now(timezone)], given the reading of the wall clock. *)
  Now : Z -> string -> OTime;
  (** [OTime.GetDateString] *)
  GetDateString : OTime -> string;
  (** [OTime.Format(dateLayout)] with [dateLayout = "02-01-2006"]. *)
  FormatDate : OTime -> string;
  (** [time.Parse(dateLayout, s)] *)
  ParseDate : string -> option OTime;
  (** [strings.ToLower] *)
  ToLower : string -> string;
  (** [OTime.MarshalJSON] and [OTime.UnmarshalJSON] *)
  OTime_MarshalJSON : OTime -> JSON;
  OTime_UnmarshalJSON : JSON -> option OTime
}.

(** ** The Mattermost server, as seen through [config.Mattermost] *)
Record World : Type := mkWorld {
  (** the plugin key-value store: hashed key to stored document *)
  kv : gmap string JSON;
  (** the [AppError] that [KVGet] / [KVSet] answer for a key, if any *)
  kvGetErr : string -> error;
  kvSetErr : string -> error;
  (** reading of the wall clock (seconds) *)
  clock : Z;
  (** channels that exist *)
  channels : gset string;
  (** username to user id *)
  users : gmap string string;
  (** [(channelId, userId)] memberships *)
  channelMembers : gset (string * string);
  (** the [AppError] that [AddChannelMember] answers, if any *)
  addMemberErr : string -> string -> error;
  (** messages delivered so far: channel id and text, latest first *)
  posts : list (string * string)
}.

Definition with_kv (w : World) (m : gmap string JSON) : World :=
  mkWorld m (kvGetErr w) (kvSetErr w) (clock w) (channels w) (users w)
          (channelMembers w) (addMemberErr w) (posts w).

Definition with_channelMembers (w : World) (s : gset (string * string)) : World :=
  mkWorld (kv w) (kvGetErr w) (kvSetErr w) (clock w) (channels w) (users w)
          s (addMemberErr w) (posts w).

Definition with_posts (w : World) (p : list (string * string)) : World :=
  mkWorld (kv w) (kvGetErr w) (kvSetErr w) (clock w) (channels w) (users w)
          (channelMembers w) (addMemberErr w) p.

(** [KVGet(key)]: the stored document ([None]: no bytes), or an error. *)
Definition KVGet (w : World) (key : string) : option JSON + string :=
  match kvGetErr w key with
  | Some e => inr e
  | None => inl (kv w !! key)
  end.

(** [KVSet(key, value)] *)
Definition KVSet (w : World) (key : string) (value : JSON) : World * error :=
  match kvSetErr w key with
  | Some e => (w, Some e)
  | None => (with_kv w (<[key := value]> (kv w)), None)
  end.

(** [GetChannel(id)] fails when there is no such channel. *)
Definition GetChannel (w : World) (id : string) : error :=
  if decide (id ∈ channels w) then None else Some "channel not found".

(** [GetUserByUsername(name)] *)
Definition GetUserByUsername (w : World) (name : string) : option string :=
  users w !! name.

(** [AddChannelMember(channelId, userId)] *)
Definition AddChannelMember (w : World) (channelID userId : string) : World * error :=
  match addMemberErr w channelID userId with
  | Some e => (w, Some e)
  | None => (with_channelMembers w ({[ (channelID, userId) ]} ∪ channelMembers w), None)
  end.

(** ** Helpers of [util] and [go-funk] *)

(** [funk.UniqString]: keeps the first occurrence of every string, in
    order; [seen] is the set of strings met so far. *)
Fixpoint UniqString_from (seen : gset string) (a : list string) : list string :=
  match a with
  | [] => []
  | v :: rest =>
      if decide (v ∈ seen) then UniqString_from seen rest
      else v :: UniqString_from ({[ v ]} ∪ seen) rest
  end.

Definition UniqString (a : list string) : list string := UniqString_from ∅ a.

(** Modelled from the spec: [util.ContainsDuplicates] is not among the
    sources; it reports the first element that repeats an earlier one
    ("no duplicate sections or members"). *)
Fixpoint ContainsDuplicates_from (seen : gset string) (a : list string) : string * bool :=
  match a with
  | [] => ("", false)
  | item :: rest =>
      if decide (item ∈ seen) then (item, true)
      else ContainsDuplicates_from ({[ item ]} ∪ seen) rest
  end.

Definition ContainsDuplicates (a : list string) : string * bool :=
  ContainsDuplicates_from ∅ a.

(** [strings.Join] *)
Definition Join (l : list string) (sep : string) : string := String.concat sep l.

(** [strings.TrimLeft(s, "@")]: drops every leading ['@']. *)
Fixpoint TrimLeftAt (s : string) : string :=
  match s with
  | String c rest => if Ascii.eqb c "@"%char then TrimLeftAt rest else s
  | EmptyString => s
  end.

(** ** [encoding/json] on the types the plugin stores *)

(** Decoding into a string, a bool and a [[]string] field.  [null] leaves a
    scalar as it was and resets a slice; any other mismatch is an
    [UnmarshalTypeError]. *)
Definition decode_string (old : string) (j : JSON) : option string :=
  match j with
  | JNull => Some old
  | JString s => Some s
  | _ => None
  end.

Definition decode_bool (old : bool) (j : JSON) : option bool :=
  match j with
  | JNull => Some old
  | JBool b => Some b
  | _ => None
  end.

Definition decode_strings (j : JSON) : option (list string) :=
  match j with
  | JNull => Some []
  | JArray items => mapM (decode_string "") items
  | _ => None
  end.

Definition encode_strings (l : list string) : JSON := JArray (JString <$> l).

(** The decoder walks the members of an object in order and stores each
    one into the value under construction. *)
Fixpoint decode_members {A : Type} (set : A -> string -> JSON -> option A)
    (a : A) (ms : list (string * JSON)) : option A :=
  match ms with
  | [] => Some a
  | (k, v) :: rest =>
      match set a k v with
      | Some a' => decode_members set a' rest
      | None => None
      end
  end.

(** Decoding an object into a [map[string]V]. *)
Definition decode_map {V : Type} (dec : JSON -> option V)
    (m : gmap string V) (j : JSON) : option (gmap string V) :=
  match j with
  | JNull => Some m
  | JObject ms =>
      decode_members (fun acc k v =>
                        match dec v with
                        | Some x => Some (<[k := x]> acc)
                        | None => None
                        end) m ms
  | _ => None
  end.

Definition encode_map {V : Type} (enc : V -> JSON) (m : gmap string V) : JSON :=
  JObject ((fun kv => (kv.1, enc kv.2)) <$> map_to_list m).

(** ** Package [standup]: the data model *)

Record UserStandup : Type := mkUserStandup {
  UserID : string;
  ChannelID : string;
  Standup : gmap string (option (list string))
}.

Record StandupConfig : Type := mkStandupConfig {
  ChannelId : string;
  WindowOpenTime : OTime;
  WindowCloseTime : OTime;
  ReportFormat : string;
  Members : list string;
  Sections : list string;
  Enabled : bool;
  Timezone : string;
  WindowOpenReminderEnabled : bool;
  WindowCloseReminderEnabled : bool
}.

(** [standupConfig.Members = v] *)
Definition with_Members (sc : StandupConfig) (v : list string) : StandupConfig :=
  mkStandupConfig (ChannelId sc) (WindowOpenTime sc) (WindowCloseTime sc)
    (ReportFormat sc) v (Sections sc) (Enabled sc) (Timezone sc)
    (WindowOpenReminderEnabled sc) (WindowCloseReminderEnabled sc).

Definition standupSectionsMinLength : nat := 1.

(** [&StandupConfig{}] and [&UserStandup{}] *)
Definition StandupConfig_zero : StandupConfig :=
  mkStandupConfig "" emptyTime emptyTime "" [] [] false "" false false.

Definition UserStandup_zero : UserStandup := mkUserStandup "" "" ∅.

Section Standup.
Context {E : Externals}.

(** *** [json.Marshal] / [json.Unmarshal], following the struct tags *)

Definition StandupConfig_Marshal (sc : StandupConfig) : JSON :=
  JObject
    [ ("channelId", JString (ChannelId sc));
      ("windowOpenTime", OTime_MarshalJSON (WindowOpenTime sc));
      ("windowCloseTime", OTime_MarshalJSON (WindowCloseTime sc));
      ("reportFormat", JString (ReportFormat sc));
      ("members", encode_strings (Members sc));
      ("sections", encode_strings (Sections sc));
      ("enabled", JBool (Enabled sc));
      ("timezone", JString (Timezone sc));
      ("windowOpenReminderEnabled", JBool (WindowOpenReminderEnabled sc));
      ("windowCloseReminderEnabled", JBool (WindowCloseReminderEnabled sc)) ].

Definition StandupConfig_setField (sc : StandupConfig) (k : string) (v : JSON)
    : option StandupConfig :=
  let '(mkStandupConfig ch wo wc rf ms ss en tz ro rc) := sc in
  if String.eqb k "channelId" then
    x ← decode_string ch v; Some (mkStandupConfig x wo wc rf ms ss en tz ro rc)
  else if String.eqb k "windowOpenTime" then
    x ← OTime_UnmarshalJSON v; Some (mkStandupConfig ch x wc rf ms ss en tz ro rc)
  else if String.eqb k "windowCloseTime" then
    x ← OTime_UnmarshalJSON v; Some (mkStandupConfig ch wo x rf ms ss en tz ro rc)
  else if String.eqb k "reportFormat" then
    x ← decode_string rf v; Some (mkStandupConfig ch wo wc x ms ss en tz ro rc)
  else if String.eqb k "members" then
    x ← decode_strings v; Some (mkStandupConfig ch wo wc rf x ss en tz ro rc)
  else if String.eqb k "sections" then
    x ← decode_strings v; Some (mkStandupConfig ch wo wc rf ms x en tz ro rc)
  else if String.eqb k "enabled" then
    x ← decode_bool en v; Some (mkStandupConfig ch wo wc rf ms ss x tz ro rc)
  else if String.eqb k "timezone" then
    x ← decode_string tz v; Some (mkStandupConfig ch wo wc rf ms ss en x ro rc)
  else if String.eqb k "windowOpenReminderEnabled" then
    x ← decode_bool ro v; Some (mkStandupConfig ch wo wc rf ms ss en tz x rc)
  else if String.eqb k "windowCloseReminderEnabled" then
    x ← decode_bool rc v; Some (mkStandupConfig ch wo wc rf ms ss en tz ro x)
  else Some sc.

Definition StandupConfig_Unmarshal (data : JSON) (sc : StandupConfig)
    : option StandupConfig :=
  match data with
  | JNull => Some sc
  | JObject ms => decode_members StandupConfig_setField sc ms
  | _ => None
  end.

(** A [*[]string] map value: [null] for the nil pointer. *)
Definition encode_tasks (t : option (list string)) : JSON :=
  match t with
  | Some l => encode_strings l
  | None => JNull
  end.

Definition decode_tasks (j : JSON) : option (option (list string)) :=
  match j with
  | JNull => Some None
  | _ => l ← decode_strings j; Some (Some l)
  end.

Definition UserStandup_Marshal (us : UserStandup) : JSON :=
  JObject
    [ ("userId", JString (UserID us));
      ("channelId", JString (ChannelID us));
      ("standup", encode_map encode_tasks (Standup us)) ].

Definition UserStandup_setField (us : UserStandup) (k : string) (v : JSON)
    : option UserStandup :=
  let '(mkUserStandup uid ch st) := us in
  if String.eqb k "userId" then
    x ← decode_string uid v; Some (mkUserStandup x ch st)
  else if String.eqb k "channelId" then
    x ← decode_string ch v; Some (mkUserStandup uid x st)
  else if String.eqb k "standup" then
    x ← decode_map decode_tasks st v; Some (mkUserStandup uid ch x)
  else Some us.

Definition UserStandup_Unmarshal (data : JSON) (us : UserStandup)
    : option UserStandup :=
  match data with
  | JNull => Some us
  | JObject ms => decode_members UserStandup_setField us ms
  | _ => None
  end.

(** The channel registry, a [map[string]string]. *)
Definition Channels_Marshal (m : gmap string string) : JSON :=
  encode_map JString m.

Definition Channels_Unmarshal (data : JSON) (m : gmap string string)
    : option (gmap string string) :=
  decode_map (decode_string "") m data.

(** Text of the error [json.Unmarshal] returns. *)
Definition unmarshalError : string := "json: cannot unmarshal".

(** *** [UserStandup.IsValid] *)

(** The loop over [us.Standup]: [maxLen = util.Max(maxLen, len( *sectionTasks))]
    for every entry; dereferencing a nil [sectionTasks] panics. *)
Definition maxLen_step (_ : string) (sectionTasks : option (list string))
    (acc : Outcome nat) : Outcome nat :=
  match acc, sectionTasks with
  | Returns maxLen, Some tasks => Returns (Nat.max maxLen (length tasks))
  | _, _ => Panics
  end.

Definition maxLen_of (st : gmap string (option (list string))) : Outcome nat :=
  map_fold maxLen_step (Returns 0%nat) st.

Definition UserStandup_IsValid (w : World) (us : UserStandup) : Outcome error :=
  if decide (UserID us = "") then
    Returns (Some "No user ID specified in standup")
  else if decide (ChannelID us = "") then
    Returns (Some "No channels ID specified in standup")
  else match GetChannel w (ChannelID us) with
  | Some _ => Returns (Some ("No channel found with channel ID: " +:+ ChannelID us))
  | None =>
    match maxLen_of (Standup us) with
    | Panics => Panics
    | Returns maxLen =>
        if decide (maxLen = 0%nat) then
          Returns (Some "No tasks found. Please specify tasks for at least one section")
        else Returns None
    end
  end.

(** *** [StandupConfig.IsValid]

    The message for too few sections is built with [util.SingularPlural],
    which is not among the sources; it is written here for the one value
    ([standupSectionsMinLength = 1]) it is called with. *)
Definition StandupConfig_IsValid (sc : StandupConfig) : error :=
  if decide (ChannelId sc = "") then
    Some "Channel ID cannot be empty"
  else if decide (WindowOpenTime sc = emptyTime) then
    Some "window open time cannot be empty"
  else if decide (WindowCloseTime sc = emptyTime) then
    Some "window close time cannot be empty"
  else if After (WindowOpenTime sc) (WindowCloseTime sc) then
    Some "Window open time cannot be after window close time"
  else if decide (Timezone sc = "") then
    Some "Timezone cannot be empty"
  else if negb (bool_decide (ReportFormat sc ∈ ReportFormats)) then
    Some ("Invalid report format specified. Report format should be one of: "
          +:+ dquote +:+ Join ReportFormats (dquote +:+ ", " +:+ dquote) +:+ dquote)
  else match LoadLocation (Timezone sc) with
  | None =>
    Some ("Invalid timezone specified : " +:+ dquote +:+ Timezone sc +:+ dquote)
  | Some _ =>
    if (length (Sections sc) <? standupSectionsMinLength)%nat then
      Some "Too few sections in standup. Required at least 1 section."
    else match ContainsDuplicates (Sections sc) with
    | (duplicateSection, true) =>
      Some ("duplicate sections are not allowed. Contains duplicate section '"
            +:+ duplicateSection +:+ "'")
    | (_, false) =>
      match ContainsDuplicates (Members sc) with
      | (duplicateMember, true) =>
        Some ("duplicate members are not allowed. Contains duplicate member '"
              +:+ duplicateMember +:+ "'")
      | (_, false) => None
      end
    end
  end.

(** *** The channel registry *)

(** [GetStandupChannels] *)
Definition GetStandupChannels (w : World) : gmap string string + string :=
  match KVGet w (GetKeyHash CacheKeyAllStandupChannels) with
  | inr appErr => inr appErr
  | inl data =>
      match data with
      | Some doc =>
          match Channels_Unmarshal doc ∅ with
          | Some chans => inl chans
          | None => inr unmarshalError
          end
      | None => inl ∅
      end
  end.

(** [setStandupChannels] *)
Definition setStandupChannels (w : World) (chans : gmap string string) : World * error :=
  KVSet w (GetKeyHash CacheKeyAllStandupChannels) (Channels_Marshal chans).

(** [AddStandupChannel] *)
Definition AddStandupChannel (w : World) (channelID : string) : World * error :=
  match GetStandupChannels w with
  | inr err => (w, Some err)
  | inl chans => setStandupChannels w (<[channelID := channelID]> chans)
  end.

(** *** The config store *)

(** [GetStandupConfig]: [inl None] is the pair [(nil, nil)]. *)
Definition GetStandupConfig (w : World) (channelID : string)
    : option StandupConfig + string :=
  let key := CacheKeyPrefixTeamStandupConfig +:+ channelID in
  match KVGet w (GetKeyHash key) with
  | inr appErr => inr appErr
  | inl None => inl None
  | inl (Some data) =>
      match StandupConfig_Unmarshal data StandupConfig_zero with
      | Some standupConfig => inl (Some standupConfig)
      | None => inr unmarshalError
      end
  end.

(** [SaveStandupConfig].  The struct behind the pointer has its [Members]
    replaced before anything else happens; the returned config is that
    struct. *)
Definition SaveStandupConfig (w : World) (standupConfig : StandupConfig)
    : World * (StandupConfig + string) :=
  let standupConfig := with_Members standupConfig (UniqString (Members standupConfig)) in
  let serializedStandupConfig := StandupConfig_Marshal standupConfig in
  let key := CacheKeyPrefixTeamStandupConfig +:+ ChannelId standupConfig in
  match KVSet w (GetKeyHash key) serializedStandupConfig with
  | (w', Some err) => (w', inr err)
  | (w', None) => (w', inl standupConfig)
  end.

(** *** The submission store *)

(** [SaveUserStandup] *)
Definition SaveUserStandup (w : World) (userStandup : UserStandup) : World * error :=
  match GetStandupConfig w (ChannelID userStandup) with
  | inr err => (w, Some err)
  | inl None =>
      (w, Some ("standup not configured for channel: " +:+ ChannelID userStandup))
  | inl (Some standupConfig) =>
      let key := GetDateString (Now (clock w) (Timezone standupConfig))
                 +:+ "_" +:+ ChannelID userStandup +:+ UserID userStandup in
      let bytes := UserStandup_Marshal userStandup in
      KVSet w (GetKeyHash key) bytes
  end.

(** [GetUserStandup]: [inl None] is the pair [(nil, nil)]. *)
Definition GetUserStandup (w : World) (userID channelID : string) (date : OTime)
    : option UserStandup + string :=
  let key := GetDateString date +:+ "_" +:+ channelID +:+ userID in
  match KVGet w (GetKeyHash key) with
  | inr appErr => inr appErr
  | inl None => inl None
  | inl (Some data) =>
      match UserStandup_Unmarshal data UserStandup_zero with
      | Some userStandup => inl (Some userStandup)
      | None => inr unmarshalError
      end
  end.

(** The hashed keys of the three kinds of entry. *)
Definition registryKey : string := GetKeyHash CacheKeyAllStandupChannels.

Definition configKey (channelID : string) : string :=
  GetKeyHash (CacheKeyPrefixTeamStandupConfig +:+ channelID).

Definition standupKey (dateKey channelID userID : string) : string :=
  GetKeyHash (dateKey +:+ "_" +:+ channelID +:+ userID).

(** The config as [SaveStandupConfig] leaves it. *)
Definition deduplicated (sc : StandupConfig) : StandupConfig :=
  with_Members sc (UniqString (Members sc)).

End Standup.

(** ** Package [command] *)

Module model.
(** [model.CommandArgs], the fields the commands read. *)
Record CommandArgs : Type := mkCommandArgs {
  ChannelId : string;
  UserId : string
}.

Inductive ResponseType : Type :=
  | COMMAND_RESPONSE_TYPE_IN_CHANNEL
  | COMMAND_RESPONSE_TYPE_EPHEMERAL.

(** [model.CommandResponse]; the type of the response is the field the
    sources set as [Type] or [ResponseType]. *)
Record CommandResponse : Type := mkCommandResponse {
  Type_ : ResponseType;
  Text : string
}.
End model.

(** A value stored in [Context.Props], a [map[string]interface{}]. *)
Inductive PropValue : Type :=
  | PString (s : string)
  | PStrings (l : list string)
  | PTimes (l : list OTime).

(** [command.Context] *)
Record Context : Type := mkContext {
  CommandArgs : model.CommandArgs;
  Props : gmap string PropValue
}.

(** [util.SendEphemeralText], as every caller uses it: an ephemeral
    response carrying the text, and no error. *)
Definition SendEphemeralText (text : string) : model.CommandResponse :=
  model.mkCommandResponse model.COMMAND_RESPONSE_TYPE_EPHEMERAL text.

(** Modelled from the spec: the visibility tokens of package
    [notification], which is not among the sources ("a visibility token
    (public|private, case-insensitive)"). *)
Definition ReportVisibilityPublic : string := "public".
Definition ReportVisibilityPrivate : string := "private".

(** [notification.SendStandupReport(channelIDs, date, visibility, userID,
    updateStatus)], which delivers through the server. *)
Class Notification : Type := {
  SendStandupReport :
    World -> list string -> OTime -> string -> string -> bool -> World * error
}.

Section Command.
Context {E : Externals} {N : Notification}.

(** *** add_members.go *)

(** The loop of [validateAddMembers]: either the map from username to user
    id, or the username that could not be found. *)
Fixpoint resolveUsernames (w : World) (userIds : gmap string string)
    (args : list string) : gmap string string + string :=
  match args with
  | [] => inl userIds
  | username :: rest =>
      let username := TrimLeftAt username in
      match userIds !! username with
      | Some _ => resolveUsernames w userIds rest
      | None =>
          match GetUserByUsername w username with
          | None => inr username
          | Some userId => resolveUsernames w (<[username := userId]> userIds) rest
          end
      end
  end.

(** [funk.Values(m)]: the values of the map.  Go walks a map in an order
    it does not specify; the list here is one of those orders, and what
    is stated of it below holds whatever the order. *)
Definition Values (m : gmap string string) : list string := (map_to_list m).*2.

(** [validateAddMembers]: the props as the call leaves them, and the
    response if there is one. *)
Definition validateAddMembers (w : World) (args : list string) (context : Context)
    : gmap string PropValue * option model.CommandResponse :=
  if (length args <? 1)%nat then
    (Props context, Some (SendEphemeralText "Please specify at least one user to add"))
  else
    match resolveUsernames w ∅ args with
    | inr username =>
        (Props context,
         Some (SendEphemeralText ("Couldn't find user with username: " +:+ username)))
    | inl userIds =>
        (<["userIds" := PStrings (Values userIds)]> (Props context), None)
    end.

(** The loop of [addChannelMembers]. *)
Fixpoint addChannelMembers_loop (w : World) (channelID : string)
    (userIds addedUsers notAddedUsers : list string)
    : World * list string * list string :=
  match userIds with
  | [] => (w, addedUsers, notAddedUsers)
  | userId :: rest =>
      match AddChannelMember w channelID userId with
      | (w', Some _) =>
          addChannelMembers_loop w' channelID rest addedUsers (notAddedUsers ++ [userId])
      | (w', None) =>
          addChannelMembers_loop w' channelID rest (addedUsers ++ [userId]) notAddedUsers
      end
  end.

(** [addChannelMembers] *)
Definition addChannelMembers (w : World) (userIds : list string) (channelID : string)
    : World * list string * list string :=
  addChannelMembers_loop w channelID userIds [] [].

(** The users that the server lets into the channel, and those it refuses. *)
Definition accepted (w : World) (channelID : string) (userIds : list string)
    : list string :=
  filter (fun userId => addMemberErr w channelID userId = None) userIds.

Definition refused (w : World) (channelID : string) (userIds : list string)
    : list string :=
  filter (fun userId => addMemberErr w channelID userId ≠ None) userIds.

(** [addStandupMembers] *)
Definition addStandupMembers (w : World) (usernames : list string) (channelID : string)
    : World * error :=
  match GetStandupConfig w channelID with
  | inr err => (w, Some err)
  | inl None => (w, Some "standup is not configured for this channel")
  | inl (Some standupConfig) =>
      let standupConfig := with_Members standupConfig (Members standupConfig ++ usernames) in
      match SaveStandupConfig w standupConfig with
      | (w', inr err) => (w', Some err)
      | (w', inl _) => (w', None)
      end
  end.

(** [buildSuccessMessage] *)
Definition buildSuccessMessage (addedUsers notAddedUsers : list string) : string :=
  let text := pretty (length addedUsers) +:+ " users added successfully." in
  if (0 <? length notAddedUsers)%nat then
    text +:+ " Following users couldn't be added: " +:+ Join notAddedUsers ", "
         +:+ String "010"%char "Make sure these users users exist on the system."
  else text.

(** [executeAddMembers] *)
Definition executeAddMembers (w : World) (args : list string) (context : Context)
    : Outcome (World * model.CommandResponse) :=
  match Props context !! "userIds" with
  | Some (PStrings userIds) =>
      let channelId := model.ChannelId (CommandArgs context) in
      let '(w1, addedUsers, notAddedUsers) := addChannelMembers w userIds channelId in
      match addStandupMembers w1 addedUsers channelId with
      | (w2, Some err) =>
          Returns (w2, SendEphemeralText
                         ("Error occurred while adding standup members: " +:+ err))
      | (w2, None) =>
          Returns (w2, model.mkCommandResponse model.COMMAND_RESPONSE_TYPE_EPHEMERAL
                         (buildSuccessMessage addedUsers notAddedUsers))
      end
  | _ => Panics
  end.

(** *** The report command *)

(** The defaulting of [args] at the head of [validateCommandStandup]. *)
Definition defaultReportArgs (w : World) (standupConfig : StandupConfig)
    (args : list string) : list string :=
  match args with
  | [] =>
      [FormatDate (Now (clock w) (Timezone standupConfig)); ReportVisibilityPrivate]
  | [arg] =>
      let lastArg := ToLower arg in
      if negb (bool_decide (lastArg = ReportVisibilityPublic))
         && negb (bool_decide (lastArg = ReportVisibilityPrivate))
      then args ++ [ReportVisibilityPrivate]
      else [FormatDate (Now (clock w) (Timezone standupConfig)); lastArg]
  | _ => args
  end.

(** The loop over [args[0 : len(args)-1]]: [dates[count] = OTime{t}] for
    every argument that parses; stops at the first one that does not. *)
Fixpoint parseDates (dates : list OTime) (count : nat) (args : list string)
    : list OTime * nat * option string :=
  match args with
  | [] => (dates, count, None)
  | arg :: rest =>
      match ParseDate arg with
      | None => (dates, count, Some arg)
      | Some t => parseDates (<[count := t]> dates) (S count) rest
      end
  end.

(** [validateCommandStandup]: the props as the call leaves them, and the
    response if there is one. *)
Definition validateCommandStandup (w : World) (args : list string) (context : Context)
    : gmap string PropValue * option model.CommandResponse :=
  match GetStandupConfig w (model.ChannelId (CommandArgs context)) with
  | inr _ =>
      (Props context, Some (SendEphemeralText "Error getting standup config of the channel"))
  | inl None =>
      (Props context, Some (SendEphemeralText "Standup not configured for the channel"))
  | inl (Some standupConfig) =>
      let args := defaultReportArgs w standupConfig args in
      let props := <["visibility" := PString (ToLower (default "" (last args)))]>
                     (Props context) in
      let dates := replicate (length args) emptyTime in
      match parseDates dates 0 (take (length args - 1) args) with
      | (dates, _, Some arg) =>
          (<["dates" := PTimes dates]> props,
           Some (SendEphemeralText
                   ("Error parsing this date: " +:+ arg
                    +:+ ". Please specify date in format: DD-MM-YYYY")))
      | (dates, count, None) =>
          (<["dates" := PTimes (take count dates)]> props, None)
      end
  end.

(** The props that a successful [validateCommandStandup] leaves, and no
    response. *)
Definition validated (context : Context) (visibility : string) (dates : list OTime)
    : gmap string PropValue * option model.CommandResponse :=
  (<["dates" := PTimes dates]> (<["visibility" := PString visibility]> (Props context)),
   None).

(** The loop of [executeCommandStandup]: the error of a send is dropped. *)
Fixpoint sendReports (w : World) (channelId visibility userId : string)
    (dates : list OTime) : World :=
  match dates with
  | [] => w
  | date :: rest =>
      match SendStandupReport w [channelId] date visibility userId false with
      | (w', Some _) => sendReports w' channelId visibility userId rest
      | (w', None) => sendReports w' channelId visibility userId rest
      end
  end.

(** [executeCommandStandup] *)
Definition executeCommandStandup (w : World) (args : list string) (context : Context)
    : Outcome (World * model.CommandResponse) :=
  let channelId := model.ChannelId (CommandArgs context) in
  match Props context !! "visibility" with
  | Some (PString visibility) =>
      let userId := model.UserId (CommandArgs context) in
      match Props context !! "dates" with
      | Some (PTimes dates) =>
          Returns (sendReports w channelId visibility userId dates,
                   model.mkCommandResponse model.COMMAND_RESPONSE_TYPE_EPHEMERAL
                     "Standup reports generated")
      | _ => Panics
      end
  | _ => Panics
  end.

(** *** The two phases, as [Plugin.ExecuteCommand] chains them: the
    response of the validation, if any, ends the command. *)
Definition runCommand
    (validate : World -> list string -> Context ->
                gmap string PropValue * option model.CommandResponse)
    (execute : World -> list string -> Context ->
               Outcome (World * model.CommandResponse))
    (w : World) (params : list string) (context : Context)
    : Outcome (World * model.CommandResponse) :=
  match validate w params context with
  | (_, Some response) => Returns (w, response)
  | (props, None) => execute w params (mkContext (CommandArgs context) props)
  end.

End Command.

(** ** A reference environment

    One concrete choice for everything the code takes from outside: a
    proleptic Gregorian calendar over instants counted in seconds from
    0001-01-01T00:00:00Z, a few fixed-offset zones, an ASCII [ToLower],
    times of day stored as "HH:MM", and a tagging key hash.  The examples
    below run the code in it. *)
Module Ref.

Definition zoneOffset (tz : string) : option Z :=
  if String.eqb tz "" then Some 0
  else if String.eqb tz "UTC" then Some 0
  else if String.eqb tz "Asia/Kolkata" then Some 19800
  else if String.eqb tz "America/New_York" then Some (-18000)
  else if String.eqb tz "Pacific/Kiritimati" then Some 50400
  else None.

(** Days from 0001-01-01 to 1970-01-01. *)
Definition unixEpochDays : Z := 719162.

(** Day number (from 1970-01-01) to year, month, day. *)
Definition civil_from_days (z : Z) : Z * Z * Z :=
  let z := z + 719468 in
  let era := z `div` 146097 in
  let doe := z - era * 146097 in
  let yoe := (doe - doe `div` 1460 + doe `div` 36524 - doe `div` 146096) `div` 365 in
  let doy := doe - (365 * yoe + yoe `div` 4 - yoe `div` 100) in
  let mp := (5 * doy + 2) `div` 153 in
  let d := doy - (153 * mp + 2) `div` 5 + 1 in
  let m := if mp <? 10 then mp + 3 else mp - 9 in
  let y := yoe + era * 400 in
  (if m <=? 2 then y + 1 else y, m, d).

Definition days_from_civil (y m d : Z) : Z :=
  let y := if m <=? 2 then y - 1 else y in
  let era := y `div` 400 in
  let yoe := y - era * 400 in
  let doy := (153 * (if 2 <? m then m - 3 else m + 9) + 2) `div` 5 + d - 1 in
  let doe := yoe * 365 + yoe `div` 4 - yoe `div` 100 + doy in
  era * 146097 + doe - 719468.

Fixpoint zeros (k : nat) : string :=
  match k with
  | O => ""
  | S k => String "0"%char (zeros k)
  end.

(** Decimal, padded with zeros to [width] digits. *)
Definition pad (width : nat) (n : Z) : string :=
  let s := pretty (Z.to_N n) in
  zeros (width - String.length s) +:+ s.

Fixpoint digits (s : string) (acc : Z) : option Z :=
  match s with
  | EmptyString => Some acc
  | String c rest =>
      let n := Z.of_nat (nat_of_ascii c) - 48 in
      if (0 <=? n) && (n <=? 9) then digits rest (10 * acc + n) else None
  end.

(** Seconds since 0001-01-01 of the wall clock reading in the location. *)
Definition localSeconds (t : OTime) : Z :=
  instant t + default 0 (zoneOffset (location t)).

Definition localDate (t : OTime) : Z * Z * Z :=
  civil_from_days (localSeconds t `div` 86400 - unixEpochDays).

Definition dateString (t : OTime) : string :=
  let '(y, m, d) := localDate t in pad 4 y +:+ pad 2 m +:+ pad 2 d.

Definition formatDate (t : OTime) : string :=
  let '(y, m, d) := localDate t in pad 2 d +:+ "-" +:+ pad 2 m +:+ "-" +:+ pad 4 y.

Definition parseDate (s : string) : option OTime :=
  if negb (String.length s =? 10)%nat then None
  else if negb (String.eqb (substring 2 1 s) "-" && String.eqb (substring 5 1 s) "-")
  then None
  else
    d ← digits (substring 0 2 s) 0;
    m ← digits (substring 3 2 s) 0;
    y ← digits (substring 6 4 s) 0;
    let days := days_from_civil y m d in
    if bool_decide (civil_from_days days = (y, m, d))
    then Some (mkOTime ((days + unixEpochDays) * 86400) "UTC")
    else None.

Definition lower_ascii (c : ascii) : ascii :=
  let n := nat_of_ascii c in
  if ((65 <=? n) && (n <=? 90))%nat then ascii_of_nat (n + 32) else c.

Fixpoint toLower (s : string) : string :=
  match s with
  | EmptyString => EmptyString
  | String c rest => String (lower_ascii c) (toLower rest)
  end.

(** A time of day is an instant within 0000-01-01, in UTC. *)
Definition timeOfDay (h mi : Z) : OTime :=
  mkOTime (h * 3600 + mi * 60 - 366 * 86400) "UTC".

(** Modelled from the spec: [OTime.MarshalJSON] and [OTime.UnmarshalJSON]
    belong to package [otime], which is not among the sources.  The window
    times are "time-of-day values (hour:minute)": a time is written as its
    hour and minute, the zero time as [null], and read back as that time of
    day. *)
Definition marshalTime (t : OTime) : JSON :=
  if decide (t = emptyTime) then JNull
  else
    let s := localSeconds t `mod` 86400 in
    JString (pad 2 (s `div` 3600) +:+ ":" +:+ pad 2 ((s `mod` 3600) `div` 60)).

Definition unmarshalTime (j : JSON) : option OTime :=
  match j with
  | JNull => Some emptyTime
  | JString s =>
      if negb ((String.length s =? 5)%nat && String.eqb (substring 2 1 s) ":") then None
      else
        h ← digits (substring 0 2 s) 0;
        mi ← digits (substring 3 2 s) 0;
        if (h <? 24) && (mi <? 60) then Some (timeOfDay h mi) else None
  | _ => None
  end.

#[local] Instance externals : Externals := {|
  ReportFormats := ["user_aggregated"; "type_aggregated"];
  CacheKeyAllStandupChannels := "allStandupChannels";
  CacheKeyPrefixTeamStandupConfig := "standupConfig:";
  GetKeyHash := fun key => "#" +:+ key;
  Location := Z;
  LoadLocation := zoneOffset;
  Now := fun clock tz => mkOTime clock tz;
  GetDateString := dateString;
  FormatDate := formatDate;
  ParseDate := parseDate;
  ToLower := toLower;
  OTime_MarshalJSON := marshalTime;
  OTime_UnmarshalJSON := unmarshalTime
|}.

(** Delivery fails for reports of 2023-12-31 and is recorded otherwise. *)
#[local] Instance notification : Notification := {|
  SendStandupReport := fun w channelIDs date visibility userID _ =>
    if String.eqb (dateString date) "20231231" then (w, Some "delivery failed")
    else (with_posts w ((Join channelIDs ",",
                         visibility +:+ " report for " +:+ dateString date)
                        :: posts w), None)
|}.

(** 2024-01-01T20:00:00Z *)
Definition clock0 : Z := (days_from_civil 2024 1 1 + unixEpochDays) * 86400 + 20 * 3600.

(** A server with one channel, two users, an empty store, and a rule
    that refuses to add user [u-bob] to any channel. *)
Definition world0 : World := {|
  kv := ∅;
  kvGetErr := fun _ => None;
  kvSetErr := fun _ => None;
  clock := clock0;
  channels := {[ "town-square" ]};
  users := {[ "alice" := "u-alice"; "bob" := "u-bob"; "carol" := "u-carol" ]};
  channelMembers := ∅;
  addMemberErr := fun _ userId =>
    if String.eqb userId "u-bob" then Some "not allowed" else None;
  posts := []
|}.

Definition config0 : StandupConfig := {|
  ChannelId := "town-square";
  WindowOpenTime := timeOfDay 9 0;
  WindowCloseTime := timeOfDay 17 0;
  ReportFormat := "user_aggregated";
  Members := ["u-alice"; "u-bob"];
  Sections := ["Yesterday"; "Today"; "Blockers"];
  Enabled := true;
  Timezone := "Asia/Kolkata";
  WindowOpenReminderEnabled := true;
  WindowCloseReminderEnabled := false
|}.

(** [world0] once [config0] has been saved. *)
Definition world1 : World := (SaveStandupConfig world0 config0).1.

Definition args0 : model.CommandArgs := model.mkCommandArgs "town-square" "u-alice".
Definition context0 : Context := mkContext args0 ∅.

(** A config whose window opens and closes at 09:00. *)
Definition config_equal_window : StandupConfig :=
  {| ChannelId := "town-square";
     WindowOpenTime := timeOfDay 9 0;
     WindowCloseTime := timeOfDay 9 0;
     ReportFormat := "user_aggregated";
     Members := ["u-alice"];
     Sections := ["Today"];
     Enabled := true;
     Timezone := "UTC";
     WindowOpenReminderEnabled := false;
     WindowCloseReminderEnabled := false |}.

(** [config0] with its members listed twice over. *)
Definition config_duplicate_member : StandupConfig :=
  with_Members config0 ["u-alice"; "u-bob"; "u-alice"].

(** A submission whose only entry is the empty string. *)
Definition standup_blank_entry : UserStandup :=
  {| UserID := "u-alice";
     ChannelID := "town-square";
     Standup := {[ "Today" := Some [""] ]} |}.

(** A submission with one task, and one with empty sections only. *)
Definition standup0 : UserStandup :=
  {| UserID := "u-alice";
     ChannelID := "town-square";
     Standup := {[ "Yesterday" := Some []; "Today" := Some ["write the report"] ]} |}.

Definition standup_empty : UserStandup :=
  {| UserID := "u-alice";
     ChannelID := "town-square";
     Standup := {[ "Yesterday" := Some []; "Today" := Some [] ]} |}.

(** A config that breaks most of the invariants: the window closes before
    it opens, the report format and the timezone are unknown, there is no
    section and a member is listed twice. *)
Definition config_invalid : StandupConfig :=
  {| ChannelId := "town-square";
     WindowOpenTime := timeOfDay 17 0;
     WindowCloseTime := timeOfDay 9 0;
     ReportFormat := "weekly";
     Members := ["u-alice"; "u-alice"];
     Sections := [];
     Enabled := true;
     Timezone := "Mars/Olympus";
     WindowOpenReminderEnabled := false;
     WindowCloseReminderEnabled := false |}.

(** The context that the validation of
    [addmembers @alice bob @@carol alice] hands to the execution. *)
Definition context_add : Context :=
  mkContext args0 {[ "userIds" := PStrings ["u-alice"; "u-bob"; "u-carol"] ]}.

(** Midnight UTC of a day of the calendar. *)
Definition day (y m d : Z) : OTime :=
  mkOTime ((days_from_civil y m d + unixEpochDays) * 86400) "UTC".

(** The context that the validation of
    [report 30-12-2023 31-12-2023 01-01-2024 private] hands to the
    execution. *)
Definition context_report : Context :=
  mkContext args0
    {[ "visibility" := PString "private";
       "dates" := PTimes [day 2023 12 30; day 2023 12 31; day 2024 1 1] ]}.

(** [config0], for the channel off-topic. *)
Definition config_other_channel : StandupConfig :=
  {| ChannelId := "off-topic";
     WindowOpenTime := timeOfDay 9 0;
     WindowCloseTime := timeOfDay 17 0;
     ReportFormat := "user_aggregated";
     Members := ["u-carol"];
     Sections := ["Today"];
     Enabled := true;
     Timezone := "UTC";
     WindowOpenReminderEnabled := false;
     WindowCloseReminderEnabled := false |}.

(** A submission with one task and a nil section. *)
Definition standup_nil_section : UserStandup :=
  {| UserID := "u-alice";
     ChannelID := "town-square";
     Standup := {[ "Yesterday" := Some ["fixed the build"]; "Today" := None ]} |}.

(** A second submission of [u-alice] in town-square. *)
Definition standup1 : UserStandup :=
  {| UserID := "u-alice";
     ChannelID := "town-square";
     Standup := {[ "Blockers" := Some ["waiting for review"; "flaky test"] ]} |}.

(** [world1] with a store that refuses every write. *)
Definition world_readonly : World :=
  mkWorld (kv world1) (kvGetErr world1) (fun _ => Some "store is read-only")
    (clock world1) (channels world1) (users world1) (channelMembers world1)
    (addMemberErr world1) (posts world1).


End Ref.

Example ref_dates :
  Ref.dateString (mkOTime Ref.clock0 "UTC") = "20240101"
  /\ Ref.dateString (mkOTime Ref.clock0 "Asia/Kolkata") = "20240102"
  /\ Ref.formatDate (mkOTime Ref.clock0 "Asia/Kolkata") = "02-01-2024"
  /\ Ref.parseDate "02-01-2024" = Some (mkOTime (Ref.clock0 + 4 * 3600) "UTC")
  /\ Ref.parseDate "31-02-2024" = None
  /\ Ref.marshalTime (Ref.timeOfDay 9 0) = JString "09:00"
  /\ Ref.unmarshalTime (JString "09:00") = Some (Ref.timeOfDay 9 0).
Proof. vm_compute. repeat split. Qed.

(** * Properties *)

(** ** [UniqString] and [ContainsDuplicates] *)

Lemma elem_of_UniqString_from (seen : gset string) (a : list string) (x : string) :
  x ∈ UniqString_from seen a ↔ x ∈ a ∧ x ∉ seen.
Proof.
  revert seen. induction a as [|v rest IH]; intros seen; simpl.
  - set_solver.
  - destruct (decide (v ∈ seen)) as [Hin|Hnin].
    + rewrite IH. set_solver.
    + rewrite elem_of_cons, IH. destruct (decide (x = v)); set_solver.
Qed.

Lemma NoDup_UniqString_from (seen : gset string) (a : list string) :
  NoDup (UniqString_from seen a).
Proof.
  revert seen. induction a as [|v rest IH]; intros seen; simpl.
  - constructor.
  - destruct (decide (v ∈ seen)); [apply IH|].
    constructor; [|apply IH].
    rewrite elem_of_UniqString_from. set_solver.
Qed.

Lemma UniqString_from_NoDup (seen : gset string) (a : list string) :
  NoDup a → (∀ x, x ∈ a → x ∉ seen) → UniqString_from seen a = a.
Proof.
  revert seen. induction a as [|v rest IH]; intros seen Hnd Hdisj; simpl; [done|].
  apply NoDup_cons in Hnd as [Hv Hnd].
  destruct (decide (v ∈ seen)) as [Hin|_].
  - exfalso. apply (Hdisj v); [left|done].
  - f_equal. apply IH; [done|].
    intros x Hx. specialize (Hdisj x ltac:(by right)). set_solver.
Qed.

Lemma UniqString_from_app (seen : gset string) (a b : list string) :
  UniqString_from seen (a ++ b)%list
  = (UniqString_from seen a ++ UniqString_from (list_to_set a ∪ seen) b)%list.
Proof.
  revert seen. induction a as [|v rest IH]; intros seen; simpl.
  - by rewrite (left_id_L ∅ (∪)).
  - destruct (decide (v ∈ seen)) as [Hin|Hnin].
    + rewrite IH. do 2 f_equal. set_solver.
    + simpl. rewrite IH. do 3 f_equal. set_solver.
Qed.

Lemma UniqString_from_seen (seen : gset string) (a : list string) :
  (∀ x, x ∈ a → x ∈ seen) → UniqString_from seen a = [].
Proof.
  induction a as [|v rest IH]; intros Hsub; simpl; [done|].
  destruct (decide (v ∈ seen)) as [_|Hnin].
  - apply IH. intros x Hx. apply Hsub. by right.
  - exfalso. apply Hnin, Hsub. left.
Qed.

Lemma elem_of_UniqString (a : list string) (x : string) : x ∈ UniqString a ↔ x ∈ a.
Proof. unfold UniqString. rewrite elem_of_UniqString_from. set_solver. Qed.

Lemma NoDup_UniqString (a : list string) : NoDup (UniqString a).
Proof. apply NoDup_UniqString_from. Qed.

Lemma UniqString_NoDup (a : list string) : NoDup a → UniqString a = a.
Proof. intros Hnd. apply UniqString_from_NoDup; [done|set_solver]. Qed.

Lemma UniqString_idemp (a : list string) : UniqString (UniqString a) = UniqString a.
Proof. apply UniqString_NoDup, NoDup_UniqString. Qed.

(** Appending strings that are all present already changes nothing. *)
Lemma UniqString_app_present (a b : list string) :
  (∀ x, x ∈ b → x ∈ a) → UniqString (a ++ b)%list = UniqString a.
Proof.
  intros Hsub. unfold UniqString. rewrite UniqString_from_app.
  rewrite (UniqString_from_seen _ b); [by rewrite app_nil_r|].
  intros x Hx. apply Hsub in Hx. set_solver.
Qed.

Lemma ContainsDuplicates_from_false (seen : gset string) (a : list string) :
  (ContainsDuplicates_from seen a).2 = false ↔ NoDup a ∧ ∀ x, x ∈ a → x ∉ seen.
Proof.
  revert seen. induction a as [|v rest IH]; intros seen; simpl.
  - split; [intros _; split; [constructor|set_solver]|done].
  - destruct (decide (v ∈ seen)) as [Hin|Hnin]; simpl.
    + split; [done|]. intros [_ Hdisj]. exfalso. apply (Hdisj v); [left|done].
    + rewrite IH, NoDup_cons. split.
      * intros [Hnd Hdisj]. split; [split; [|done]|].
        -- intros Hv. apply (Hdisj v Hv). set_solver.
        -- intros x [->|Hx]%elem_of_cons; [done|].
           specialize (Hdisj x Hx). set_solver.
      * intros [[Hv Hnd] Hdisj]. split; [done|].
        intros x Hx. specialize (Hdisj x ltac:(by right)).
        assert (x ≠ v) by (intros ->; done). set_solver.
Qed.

Lemma ContainsDuplicates_false (a : list string) :
  (ContainsDuplicates a).2 = false ↔ NoDup a.
Proof.
  unfold ContainsDuplicates. rewrite ContainsDuplicates_from_false. set_solver.
Qed.

Lemma ContainsDuplicates_true (a : list string) :
  (ContainsDuplicates a).2 = true ↔ ¬ NoDup a.
Proof.
  rewrite <- ContainsDuplicates_false. destruct (ContainsDuplicates a).2; naive_solver.
Qed.

(** ** Decoding what was encoded *)

Lemma decode_encode_strings (l : list string) :
  decode_strings (encode_strings l) = Some l.
Proof.
  unfold decode_strings, encode_strings.
  apply mapM_Some_2. induction l as [|s l IH]; simpl; constructor; done.
Qed.

Lemma decode_encode_tasks (t : option (list string)) :
  decode_tasks (encode_tasks t) = Some t.
Proof.
  destruct t as [l|]; [|done].
  unfold decode_tasks, encode_tasks.
  change (encode_strings l) with (JArray (JString <$> l)) at 1.
  cbv beta iota. by rewrite decode_encode_strings.
Qed.

Section DecodeMap.
Context {V : Type} (enc : V → JSON) (dec : JSON → option V).
Hypothesis dec_enc : ∀ v, dec (enc v) = Some v.

Let store (acc : gmap string V) (k : string) (v : JSON) : option (gmap string V) :=
  match dec v with
  | Some x => Some (<[k := x]> acc)
  | None => None
  end.

Lemma decode_members_encoded (l : list (string * V)) (acc : gmap string V) :
  decode_members store acc ((λ kv, (kv.1, enc kv.2)) <$> l)
  = Some (foldl (λ m kv, <[kv.1 := kv.2]> m) acc l).
Proof.
  revert acc. induction l as [|[k v] l IH]; intros acc; simpl; [done|].
  unfold store at 1. rewrite dec_enc. apply IH.
Qed.

Lemma foldl_insert_lookup (l : list (string * V)) (acc : gmap string V) (i : string) :
  NoDup l.*1 →
  foldl (λ m kv, <[kv.1 := kv.2]> m) acc l !! i
  = match (list_to_map l : gmap string V) !! i with
    | Some v => Some v
    | None => acc !! i
    end.
Proof.
  revert acc. induction l as [|[k v] l IH]; intros acc Hnd; simpl.
  - by rewrite lookup_empty.
  - apply NoDup_cons in Hnd as [Hk Hnd]. rewrite IH by done.
    destruct (decide (k = i)) as [->|Hne].
    + rewrite lookup_insert_eq.
      rewrite (not_elem_of_list_to_map_1 l i) by done.
      by rewrite lookup_insert_eq.
    + rewrite (lookup_insert_ne (list_to_map l)) by done.
      destruct (list_to_map l !! i); [done|].
      by rewrite lookup_insert_ne.
Qed.

Lemma decode_encode_map (m : gmap string V) :
  decode_map dec ∅ (encode_map enc m) = Some m.
Proof.
  unfold decode_map, encode_map.
  change (decode_members store ∅ ((λ kv, (kv.1, enc kv.2)) <$> map_to_list m) = Some m).
  rewrite decode_members_encoded. f_equal.
  apply map_eq. intros i.
  rewrite foldl_insert_lookup by apply NoDup_fst_map_to_list.
  rewrite list_to_map_to_list, lookup_empty. by destruct (m !! i).
Qed.
End DecodeMap.

Section Codec.
Context {E : Externals}.

#[local] Arguments decode_map : simpl never.
#[local] Arguments encode_map : simpl never.
#[local] Arguments decode_strings : simpl never.
#[local] Arguments encode_strings : simpl never.

Lemma Channels_Unmarshal_Marshal (m : gmap string string) :
  Channels_Unmarshal (Channels_Marshal m) ∅ = Some m.
Proof. apply decode_encode_map. done. Qed.

Lemma UserStandup_Unmarshal_Marshal (us : UserStandup) :
  UserStandup_Unmarshal (UserStandup_Marshal us) UserStandup_zero = Some us.
Proof.
  destruct us as [uid ch st]. cbn.
  rewrite (decode_encode_map encode_tasks decode_tasks decode_encode_tasks). done.
Qed.

(** A config is read back as written, provided its two times of day are. *)
Lemma StandupConfig_Unmarshal_Marshal (sc : StandupConfig) :
  OTime_UnmarshalJSON (OTime_MarshalJSON (WindowOpenTime sc)) = Some (WindowOpenTime sc) →
  OTime_UnmarshalJSON (OTime_MarshalJSON (WindowCloseTime sc)) = Some (WindowCloseTime sc) →
  StandupConfig_Unmarshal (StandupConfig_Marshal sc) StandupConfig_zero = Some sc.
Proof.
  destruct sc as [ch wo wc rf ms ss en tz ro rc]. cbn. intros Ho Hc.
  rewrite Ho. cbn. rewrite Hc. cbn.
  rewrite decode_encode_strings. cbn. rewrite decode_encode_strings. done.
Qed.

End Codec.

(** ** [StandupConfig.IsValid] *)

Section ConfigValidation.
Context {E : Externals}.

(** Exactly which configs pass. *)
Lemma StandupConfig_IsValid_nil_iff (sc : StandupConfig) :
  StandupConfig_IsValid sc = None ↔
    ChannelId sc ≠ ""
    ∧ WindowOpenTime sc ≠ emptyTime
    ∧ WindowCloseTime sc ≠ emptyTime
    ∧ instant (WindowOpenTime sc) ≤ instant (WindowCloseTime sc)
    ∧ Timezone sc ≠ ""
    ∧ ReportFormat sc ∈ ReportFormats
    ∧ is_Some (LoadLocation (Timezone sc))
    ∧ (standupSectionsMinLength ≤ length (Sections sc))%nat
    ∧ NoDup (Sections sc)
    ∧ NoDup (Members sc).
Proof.
  unfold StandupConfig_IsValid, After.
  destruct (decide (ChannelId sc = "")); [naive_solver|].
  destruct (decide (WindowOpenTime sc = emptyTime)); [naive_solver|].
  destruct (decide (WindowCloseTime sc = emptyTime)); [naive_solver|].
  destruct (Z.ltb_spec (instant (WindowCloseTime sc)) (instant (WindowOpenTime sc)));
    [split; [done|intros (_ & _ & _ & ? & _); lia]|].
  destruct (decide (Timezone sc = "")); [naive_solver|].
  destruct (bool_decide_reflect (ReportFormat sc ∈ ReportFormats)); simpl;
    [|naive_solver].
  destruct (LoadLocation (Timezone sc)) as [l|] eqn:Hloc;
    [|split; [done|intros (_ & _ & _ & _ & _ & _ & [? ?] & _); done]].
  destruct (Nat.ltb_spec (length (Sections sc)) standupSectionsMinLength);
    [split; [done|intros (_ & _ & _ & _ & _ & _ & _ & ? & _); lia]|].
  pose proof (ContainsDuplicates_false (Sections sc)) as Hs.
  pose proof (ContainsDuplicates_false (Members sc)) as Hm.
  destruct (ContainsDuplicates (Sections sc)) as [ds [|]]; simpl in Hs;
    [split; [done|intros (_ & _ & _ & _ & _ & _ & _ & _ & ? & _); naive_solver]|].
  destruct (ContainsDuplicates (Members sc)) as [dm [|]]; simpl in Hm;
    [split; [done|intros (_ & _ & _ & _ & _ & _ & _ & _ & _ & ?); naive_solver]|].
  split; [|done]. intros _. repeat split; eauto; naive_solver.
Qed.

(** C2 (as amended): a config that [StandupConfig.IsValid] accepts has a
    window open time that is not later than its window close time (equal
    times pass), a timezone that [time.LoadLocation] resolves, and no
    duplicate among its sections or among its members; and a config whose
    open time is later than its close time, whose timezone does not
    resolve, or whose sections or members hold a duplicate, is rejected
    with an error. *)
Theorem StandupConfig_IsValid_window_zone_duplicates (sc : StandupConfig) :
  (StandupConfig_IsValid sc = None →
     instant (WindowOpenTime sc) ≤ instant (WindowCloseTime sc)
     ∧ is_Some (LoadLocation (Timezone sc))
     ∧ NoDup (Sections sc)
     ∧ NoDup (Members sc))
  ∧ (instant (WindowCloseTime sc) < instant (WindowOpenTime sc)
     ∨ LoadLocation (Timezone sc) = None
     ∨ ¬ NoDup (Sections sc)
     ∨ ¬ NoDup (Members sc) →
     ∃ msg, StandupConfig_IsValid sc = Some msg).
Proof.
  split.
  - intros Hok. apply StandupConfig_IsValid_nil_iff in Hok. naive_solver.
  - intros Hbad. destruct (StandupConfig_IsValid sc) as [msg|] eqn:Hv; [by eexists|].
    apply StandupConfig_IsValid_nil_iff in Hv
      as (_ & _ & _ & Hle & _ & _ & [l Hl] & _ & Hs & Hm).
    destruct Hbad as [Hlt|[Hnone|[Hdup|Hdup]]]; [lia|congruence|done|done].
Qed.

End ConfigValidation.

(** C2 as stated fails: a config whose window opens and closes at the same
    time is accepted, although its open time is not strictly earlier. *)
Lemma StandupConfig_IsValid_accepts_equal_window :
  @StandupConfig_IsValid Ref.externals Ref.config_equal_window = None
  ∧ ¬ instant (WindowOpenTime Ref.config_equal_window)
      < instant (WindowCloseTime Ref.config_equal_window).
Proof. split; [vm_compute; reflexivity|vm_compute; discriminate]. Qed.

(** [config0] passes and has the four properties; listing a member twice is rejected. *)
Lemma StandupConfig_IsValid_window_zone_duplicates_witness :
  (@StandupConfig_IsValid Ref.externals Ref.config0 = None
   ∧ instant (WindowOpenTime Ref.config0) ≤ instant (WindowCloseTime Ref.config0)
   ∧ is_Some (Ref.zoneOffset (Timezone Ref.config0))
   ∧ NoDup (Sections Ref.config0)
   ∧ NoDup (Members Ref.config0))
  ∧ (¬ NoDup (Members Ref.config_duplicate_member)
     ∧ ∃ msg, @StandupConfig_IsValid Ref.externals Ref.config_duplicate_member = Some msg).
Proof.
  split.
  - assert (@StandupConfig_IsValid Ref.externals Ref.config0 = None) as Hok
      by (vm_compute; reflexivity).
    split; [exact Hok|].
    exact (proj1 (@StandupConfig_IsValid_window_zone_duplicates
                    Ref.externals Ref.config0) Hok).
  - assert (¬ NoDup (Members Ref.config_duplicate_member)) as Hdup
      by (apply (bool_decide_unpack _); vm_compute; reflexivity).
    split; [exact Hdup|].
    apply (proj2 (@StandupConfig_IsValid_window_zone_duplicates
                    Ref.externals Ref.config_duplicate_member)).
    right; right; right. exact Hdup.
Defined.

(** ** [UserStandup.IsValid] *)

(** What the loop over the sections computes, on the list of entries. *)
Lemma foldr_maxLen_step (l : list (string * option (list string))) :
  match foldr (uncurry maxLen_step) (Returns 0%nat) l with
  | Panics => ∃ kv, kv ∈ l ∧ kv.2 = None
  | Returns n =>
      (∀ kv, kv ∈ l → ∃ tasks, kv.2 = Some tasks ∧ (length tasks ≤ n)%nat)
      ∧ (n = 0%nat ∨ ∃ kv tasks, kv ∈ l ∧ kv.2 = Some tasks ∧ length tasks = n)
  end.
Proof.
  induction l as [|[k t] l IH]; simpl.
  - split; [by intros kv ?%elem_of_nil|by left].
  - destruct (foldr (uncurry maxLen_step) (Returns 0%nat) l) as [n|].
    + destruct IH as [Hall Hmax]. destruct t as [tasks|]; simpl.
      * split.
        -- intros kv [->|Hin]%elem_of_cons.
           ++ exists tasks. split; [done|]. simpl. lia.
           ++ destruct (Hall kv Hin) as (ts & ? & ?). exists ts. split; [done|lia].
        -- destruct (Nat.max_spec n (length tasks)) as [[_ ->]|[_ ->]].
           ++ right. exists (k, Some tasks), tasks. split; [left|done].
           ++ destruct Hmax as [->|(kv & ts & Hin & ? & ?)]; [by left|].
              right. exists kv, ts. split; [by right|done].
      * exists (k, None). split; [left|done].
    + destruct IH as (kv & Hin & Hnil). simpl.
      exists kv. split; [by right|done].
Qed.

(** A nil section pointer makes the loop panic; otherwise it returns the
    length of the longest task list. *)
Lemma maxLen_of_spec (st : gmap string (option (list string))) :
  match maxLen_of st with
  | Panics => ∃ k, st !! k = Some None
  | Returns n =>
      (∀ k t, st !! k = Some t → ∃ tasks, t = Some tasks ∧ (length tasks ≤ n)%nat)
      ∧ (n = 0%nat ∨ ∃ k tasks, st !! k = Some (Some tasks) ∧ length tasks = n)
  end.
Proof.
  unfold maxLen_of. rewrite map_fold_foldr.
  pose proof (foldr_maxLen_step (map_to_list st)) as H.
  destruct (foldr (uncurry maxLen_step) (Returns 0%nat) (map_to_list st)) as [n|].
  - destruct H as [Hall Hmax]. split.
    + intros k t Hk. apply (Hall (k, t)). by apply elem_of_map_to_list.
    + destruct Hmax as [->|([k t] & tasks & Hin & Ht & Hn)]; [by left|].
      right. exists k, tasks. simpl in Ht. subst t.
      split; [by apply elem_of_map_to_list|done].
  - destruct H as ([k t] & Hin & Ht). simpl in Ht. subst t.
    exists k. by apply elem_of_map_to_list.
Qed.

(** C5 (as amended): [UserStandup.IsValid] returns an error for every
    submission in which every section's task sequence is empty; it accepts
    a submission with a user id, a channel id naming an existing channel
    and no nil section as soon as one section holds at least one entry.
    Entries are counted, not inspected: an empty string is an entry. *)
Theorem UserStandup_IsValid_counts_entries (w : World) (us : UserStandup) :
  ((∀ k t, Standup us !! k = Some t → t = Some []) →
     ∃ msg, UserStandup_IsValid w us = Returns (Some msg))
  ∧ (UserID us ≠ "" → ChannelID us ≠ "" → ChannelID us ∈ channels w →
     (∀ k, Standup us !! k ≠ Some None) →
     (∃ k tasks, Standup us !! k = Some (Some tasks) ∧ (1 ≤ length tasks)%nat) →
     UserStandup_IsValid w us = Returns None).
Proof.
  unfold UserStandup_IsValid, GetChannel.
  pose proof (maxLen_of_spec (Standup us)) as Hspec.
  split.
  - intros Hempty.
    destruct (decide (UserID us = "")); [by eexists|].
    destruct (decide (ChannelID us = "")); [by eexists|].
    destruct (decide (ChannelID us ∈ channels w)); [|by eexists].
    destruct (maxLen_of (Standup us)) as [mx|].
    + destruct Hspec as [_ [->|(k & tasks & Hk & Hn)]]; [by eexists|].
      apply Hempty in Hk. injection Hk as ->. simpl in Hn. subst mx. by eexists.
    + destruct Hspec as (k & Hk). apply Hempty in Hk. done.
  - intros Hu Hc Hex Hnonnil (k & tasks & Hk & Hlen).
    destruct (decide (UserID us = "")); [done|].
    destruct (decide (ChannelID us = "")); [done|].
    destruct (decide (ChannelID us ∈ channels w)); [|done].
    destruct (maxLen_of (Standup us)) as [mx|].
    + destruct Hspec as [Hall _]. destruct (Hall k _ Hk) as (ts & [= <-] & Hle).
      destruct (decide (mx = 0%nat)); [lia|done].
    + destruct Hspec as (k' & Hk'). by apply Hnonnil in Hk'.
Qed.

(** C5 as stated fails: a submission whose only entry is the empty string
    passes, although no section holds a non-empty entry. *)
Lemma UserStandup_IsValid_accepts_blank_entry :
  UserStandup_IsValid Ref.world0 Ref.standup_blank_entry = Returns None
  ∧ ∀ k tasks s,
      Standup Ref.standup_blank_entry !! k = Some (Some tasks) → s ∈ tasks → s = "".
Proof.
  split; [vm_compute; reflexivity|].
  intros k tasks s Hk Hs. unfold Ref.standup_blank_entry in Hk. simpl in Hk.
  apply lookup_singleton_Some in Hk as [_ [= <-]].
  by apply list_elem_of_singleton in Hs.
Qed.

(** Two empty sections are rejected; one task in one section passes. *)
Lemma UserStandup_IsValid_counts_entries_witness :
  (∃ msg, UserStandup_IsValid Ref.world0 Ref.standup_empty = Returns (Some msg))
  ∧ UserStandup_IsValid Ref.world0 Ref.standup0 = Returns None.
Proof.
  split.
  - apply (proj1 (UserStandup_IsValid_counts_entries Ref.world0 Ref.standup_empty)).
    intros k t Hk. unfold Ref.standup_empty in Hk. simpl in Hk.
    apply lookup_insert_Some in Hk as [[_ <-]|[_ Hk]]; [done|].
    by apply lookup_singleton_Some in Hk as [_ <-].
  - apply (proj2 (UserStandup_IsValid_counts_entries Ref.world0 Ref.standup0)).
    + vm_compute; discriminate.
    + vm_compute; discriminate.
    + apply (bool_decide_unpack _). vm_compute. reflexivity.
    + intros k Hk. unfold Ref.standup0 in Hk. simpl in Hk.
      apply lookup_insert_Some in Hk as [[_ [=]]|[_ Hk]].
      by apply lookup_singleton_Some in Hk as [_ [=]].
    + exists "Today", ["write the report"]. split; [vm_compute; reflexivity|simpl; lia].
Defined.

(** ** The key-value store *)

Lemma KVSet_ok (w : World) (key : string) (value : JSON) :
  kvSetErr w key = None →
  KVSet w key value = (with_kv w (<[key := value]> (kv w)), None).
Proof. intros H. unfold KVSet. by rewrite H. Qed.

Lemma KVSet_err (w : World) (key : string) (value : JSON) (e : string) :
  kvSetErr w key = Some e → KVSet w key value = (w, Some e).
Proof. intros H. unfold KVSet. by rewrite H. Qed.

Lemma KVGet_with_kv (w : World) (m : gmap string JSON) (key : string) :
  kvGetErr w key = None → KVGet (with_kv w m) key = inl (m !! key).
Proof. intros H. unfold KVGet. simpl. by rewrite H. Qed.

Lemma with_kv_with_kv (w : World) (m m' : gmap string JSON) :
  with_kv (with_kv w m) m' = with_kv w m'.
Proof. reflexivity. Qed.

Lemma with_kv_same (w : World) : with_kv w (kv w) = w.
Proof. by destruct w. Qed.

(** ** The config store *)

Section ConfigStore.
Context {E : Externals}.

Lemma SaveStandupConfig_ok (w : World) (sc : StandupConfig) :
  kvSetErr w (configKey (ChannelId sc)) = None →
  SaveStandupConfig w sc
  = (with_kv w (<[configKey (ChannelId sc) := StandupConfig_Marshal (deduplicated sc)]> (kv w)),
     inl (deduplicated sc)).
Proof.
  intros Hset. unfold SaveStandupConfig.
  change (ChannelId (with_Members sc (UniqString (Members sc)))) with (ChannelId sc).
  fold (configKey (ChannelId sc)). by rewrite KVSet_ok.
Qed.

Lemma SaveStandupConfig_err (w : World) (sc : StandupConfig) (e : string) :
  kvSetErr w (configKey (ChannelId sc)) = Some e →
  SaveStandupConfig w sc = (w, inr e).
Proof.
  intros Hset. unfold SaveStandupConfig.
  change (ChannelId (with_Members sc (UniqString (Members sc)))) with (ChannelId sc).
  fold (configKey (ChannelId sc)). by rewrite (KVSet_err _ _ _ e).
Qed.

(** Reading the key a config document sits under. *)
Lemma GetStandupConfig_stored (w : World) (m : gmap string JSON)
    (channelID : string) (sc : StandupConfig) :
  kvGetErr w (configKey channelID) = None →
  m !! configKey channelID = Some (StandupConfig_Marshal sc) →
  OTime_UnmarshalJSON (OTime_MarshalJSON (WindowOpenTime sc)) = Some (WindowOpenTime sc) →
  OTime_UnmarshalJSON (OTime_MarshalJSON (WindowCloseTime sc)) = Some (WindowCloseTime sc) →
  GetStandupConfig (with_kv w m) channelID = inl (Some sc).
Proof.
  intros Hget Hm Ho Hc. unfold GetStandupConfig. fold (configKey channelID).
  rewrite KVGet_with_kv by done. rewrite Hm.
  by rewrite StandupConfig_Unmarshal_Marshal.
Qed.

(** Reading does not depend on keys other than the config's. *)
Lemma GetStandupConfig_other_key (w : World) (key : string) (value : JSON)
    (channelID : string) :
  key ≠ configKey channelID →
  GetStandupConfig (with_kv w (<[key := value]> (kv w))) channelID
  = GetStandupConfig w channelID.
Proof.
  intros Hne. unfold GetStandupConfig, KVGet. fold (configKey channelID). simpl.
  by rewrite lookup_insert_ne.
Qed.

End ConfigStore.

(** ** The channel registry, and what [SaveStandupConfig] leaves to its callers *)

Section Registry.
Context {E : Externals}.

Lemma GetStandupChannels_other_key (w : World) (key : string) (value : JSON) :
  key ≠ registryKey →
  GetStandupChannels (with_kv w (<[key := value]> (kv w))) = GetStandupChannels w.
Proof.
  intros Hne. unfold GetStandupChannels, KVGet. fold registryKey. simpl.
  by rewrite lookup_insert_ne.
Qed.

(** A successful [AddStandupChannel] stores the registry with the channel
    in it. *)
Lemma AddStandupChannel_ok_inv (w w1 : World) (channelID : string) :
  AddStandupChannel w channelID = (w1, None) →
  ∃ chans,
    GetStandupChannels w = inl chans
    ∧ kvGetErr w registryKey = None
    ∧ kvSetErr w registryKey = None
    ∧ w1 = with_kv w (<[registryKey := Channels_Marshal (<[channelID := channelID]> chans)]>
                        (kv w)).
Proof.
  unfold AddStandupChannel, setStandupChannels. fold registryKey.
  destruct (GetStandupChannels w) as [chans|err] eqn:Hget; [|done].
  intros Hset. exists chans. split; [done|].
  assert (kvGetErr w registryKey = None) as Hg.
  { unfold GetStandupChannels, KVGet in Hget. fold registryKey in Hget.
    by destruct (kvGetErr w registryKey). }
  unfold KVSet in Hset. destruct (kvSetErr w registryKey) eqn:Hs; [done|].
  by injection Hset as <-.
Qed.

Lemma GetStandupChannels_stored (w : World) (m : gmap string JSON)
    (chans : gmap string string) :
  kvGetErr w registryKey = None →
  m !! registryKey = Some (Channels_Marshal chans) →
  GetStandupChannels (with_kv w m) = inl chans.
Proof.
  intros Hg Hm. unfold GetStandupChannels. fold registryKey.
  rewrite KVGet_with_kv by done. rewrite Hm.
  by rewrite Channels_Unmarshal_Marshal.
Qed.

(** C1 (as amended): [SaveStandupConfig] checks none of the invariants and
    does not touch the channel registry.  For every config it replaces
    [Members] by its deduplication and writes the serialized config under
    the channel's config key, or returns the error of the store and writes
    nothing.  Checking ([StandupConfig.IsValid]) and registering
    ([AddStandupChannel]) are separate operations; [AddStandupChannel] is
    idempotent: once it has succeeded, repeating it succeeds, leaves the
    store as it is, and the registry holds the channel id. *)
Theorem SaveStandupConfig_writes_unchecked (w : World) (sc : StandupConfig) :
  (kvSetErr w (configKey (ChannelId sc)) = None →
     SaveStandupConfig w sc
     = (with_kv w (<[configKey (ChannelId sc) := StandupConfig_Marshal (deduplicated sc)]>
                     (kv w)),
        inl (deduplicated sc)))
  ∧ (∀ e, kvSetErr w (configKey (ChannelId sc)) = Some e →
       SaveStandupConfig w sc = (w, inr e))
  ∧ (configKey (ChannelId sc) ≠ registryKey →
       GetStandupChannels (SaveStandupConfig w sc).1 = GetStandupChannels w)
  ∧ (∀ channelID w1,
       AddStandupChannel w channelID = (w1, None) →
       AddStandupChannel w1 channelID = (w1, None)
       ∧ ∃ chans, GetStandupChannels w1 = inl chans ∧ chans !! channelID = Some channelID).
Proof.
  split; [apply SaveStandupConfig_ok|].
  split; [apply SaveStandupConfig_err|].
  split.
  - intros Hne. destruct (kvSetErr w (configKey (ChannelId sc))) as [e|] eqn:Hset.
    + by rewrite (SaveStandupConfig_err w sc e).
    + rewrite SaveStandupConfig_ok by done. simpl.
      by apply GetStandupChannels_other_key.
  - intros channelID w1 Hadd.
    apply AddStandupChannel_ok_inv in Hadd as (chans & Hget & Hg & Hs & ->).
    assert (GetStandupChannels
              (with_kv w (<[registryKey := Channels_Marshal (<[channelID := channelID]> chans)]>
                            (kv w)))
            = inl (<[channelID := channelID]> chans)) as Hget1.
    { apply GetStandupChannels_stored; [done|by rewrite lookup_insert_eq]. }
    split.
    + unfold AddStandupChannel. rewrite Hget1.
      unfold setStandupChannels. fold registryKey.
      rewrite KVSet_ok by done. simpl.
      by rewrite !insert_insert_eq.
    + eexists. split; [exact Hget1|]. by rewrite lookup_insert_eq.
Qed.

End Registry.

(** C1 as stated fails: a config that [StandupConfig.IsValid] rejects is
    written all the same, and the registry does not hold its channel
    afterwards. *)
Lemma SaveStandupConfig_writes_invalid_unregistered :
  (∃ msg, @StandupConfig_IsValid Ref.externals Ref.config_invalid = Some msg)
  ∧ ∃ w' saved,
      @SaveStandupConfig Ref.externals Ref.world0 Ref.config_invalid = (w', inl saved)
      ∧ kv Ref.world0 !! @configKey Ref.externals "town-square" = None
      ∧ kv w' !! @configKey Ref.externals "town-square"
        = Some (@StandupConfig_Marshal Ref.externals saved)
      ∧ @GetStandupChannels Ref.externals w' = inl ∅.
Proof.
  split; [eexists; vm_compute; reflexivity|].
  eexists _, _. split; [reflexivity|].
  split; [reflexivity|]. split; [vm_compute; reflexivity|].
  vm_compute. reflexivity.
Qed.

(** The invalid config is written to the empty store, the registry is not touched, and registering a channel twice is registering it once. *)
Lemma SaveStandupConfig_writes_unchecked_witness :
  let w1 := (@AddStandupChannel Ref.externals Ref.world0 "town-square").1 in
  @SaveStandupConfig Ref.externals Ref.world0 Ref.config_invalid
  = (with_kv Ref.world0
       (<[@configKey Ref.externals "town-square" :=
            @StandupConfig_Marshal Ref.externals
              (deduplicated Ref.config_invalid)]> (kv Ref.world0)),
     inl (deduplicated Ref.config_invalid))
  ∧ @GetStandupChannels Ref.externals
      (@SaveStandupConfig Ref.externals Ref.world0 Ref.config_invalid).1
    = @GetStandupChannels Ref.externals Ref.world0
  ∧ @AddStandupChannel Ref.externals w1 "town-square" = (w1, None).
Proof.
  pose proof (@SaveStandupConfig_writes_unchecked Ref.externals Ref.world0
                Ref.config_invalid) as (Hok & _ & Hreg & Hadd).
  split; [apply Hok; reflexivity|].
  split; [apply Hreg; vm_compute; discriminate|].
  apply (Hadd "town-square"). reflexivity.
Defined.

(** ** The submission store *)

Section SubmissionStore.
Context {E : Externals}.

(** A config that was read came from a store whose read succeeded. *)
Lemma GetStandupConfig_inl_kvGetErr (w : World) (channelID : string)
    (r : option StandupConfig) :
  GetStandupConfig w channelID = inl r → kvGetErr w (configKey channelID) = None.
Proof.
  unfold GetStandupConfig, KVGet. fold (configKey channelID).
  by destruct (kvGetErr w (configKey channelID)).
Qed.

(** C9: when the channel of a submission has no stored standup config,
    [SaveUserStandup] returns an error and the world, the key-value store
    included, is exactly what it was. *)
Theorem SaveUserStandup_not_configured (w : World) (us : UserStandup) :
  GetStandupConfig w (ChannelID us) = inl None →
  SaveUserStandup w us
  = (w, Some ("standup not configured for channel: " +:+ ChannelID us)).
Proof. intros Hget. unfold SaveUserStandup. by rewrite Hget. Qed.

(** C3: for a channel whose config exists, [SaveUserStandup] writes the
    submission under the hash of [<dateKey>_<channelId><userId>], where
    [dateKey] is the date string of the current instant taken in the
    timezone of the channel's config; [GetUserStandup] for the same user,
    channel and a date with that date string reads the same key and
    returns the submission. *)
Theorem SaveUserStandup_GetUserStandup_key (w : World) (us : UserStandup)
    (standupConfig : StandupConfig) :
  let dateKey := GetDateString (Now (clock w) (Timezone standupConfig)) in
  let key := GetKeyHash (dateKey +:+ "_" +:+ ChannelID us +:+ UserID us) in
  GetStandupConfig w (ChannelID us) = inl (Some standupConfig) →
  kvSetErr w key = None →
  kvGetErr w key = None →
  SaveUserStandup w us
  = (with_kv w (<[key := UserStandup_Marshal us]> (kv w)), None)
  ∧ ∀ date,
      GetDateString date = dateKey →
      GetUserStandup (SaveUserStandup w us).1 (UserID us) (ChannelID us) date
      = inl (Some us).
Proof.
  intros dateKey key Hcfg Hset Hget.
  assert (SaveUserStandup w us
          = (with_kv w (<[key := UserStandup_Marshal us]> (kv w)), None)) as Hsave.
  { unfold SaveUserStandup. rewrite Hcfg. fold dateKey. fold key. by apply KVSet_ok. }
  split; [exact Hsave|].
  intros date Hdate. rewrite Hsave. simpl.
  unfold GetUserStandup. rewrite Hdate. fold key.
  rewrite KVGet_with_kv by done. rewrite lookup_insert_eq.
  by rewrite UserStandup_Unmarshal_Marshal.
Qed.

End SubmissionStore.

(** On the empty store a submission is refused and nothing changes. *)
Lemma SaveUserStandup_not_configured_witness :
  @SaveUserStandup Ref.externals Ref.world0 Ref.standup0
  = (Ref.world0, Some "standup not configured for channel: town-square").
Proof.
  apply (@SaveUserStandup_not_configured Ref.externals Ref.world0 Ref.standup0).
  reflexivity.
Defined.

(** At 20:00 UTC on 2024-01-01 a submission in an Asia/Kolkata channel sits under the key of 2024-01-02, and is read back for that date. *)
Lemma SaveUserStandup_GetUserStandup_key_witness :
  kv (@SaveUserStandup Ref.externals Ref.world1 Ref.standup0).1
    !! "#20240102_town-squareu-alice"
  = Some (UserStandup_Marshal Ref.standup0)
  ∧ @GetUserStandup Ref.externals (@SaveUserStandup Ref.externals Ref.world1 Ref.standup0).1
      "u-alice" "town-square" (mkOTime (Ref.clock0 + 4 * 3600) "UTC")
    = inl (Some Ref.standup0).
Proof.
  destruct (@SaveUserStandup_GetUserStandup_key Ref.externals Ref.world1 Ref.standup0
              (deduplicated Ref.config0)) as [Hsave Hget];
    [vm_compute; reflexivity|reflexivity|reflexivity|].
  split.
  - rewrite Hsave. vm_compute. reflexivity.
  - apply (Hget (mkOTime (Ref.clock0 + 4 * 3600) "UTC")). vm_compute. reflexivity.
Defined.

(** The date key is the channel's day, not that of UTC: at 20:00 UTC on
    2024-01-01 a channel in Asia/Kolkata files a submission under
    2024-01-02, and nothing under 2024-01-01. *)
Example SaveUserStandup_channel_day :
  let w := (@SaveUserStandup Ref.externals Ref.world1 Ref.standup0).1 in
  Ref.dateString (mkOTime (clock Ref.world1) "UTC") = "20240101"
  ∧ (∃ d, Ref.parseDate "02-01-2024" = Some d
        ∧ @GetUserStandup Ref.externals w "u-alice" "town-square" d
          = inl (Some Ref.standup0))
  ∧ (∃ d, Ref.parseDate "01-01-2024" = Some d
        ∧ @GetUserStandup Ref.externals w "u-alice" "town-square" d = inl None).
Proof.
  split; [vm_compute; reflexivity|].
  split; eexists; (split; [vm_compute; reflexivity|vm_compute; reflexivity]).
Qed.

(** ** Adding members *)

Section AddMembers.
Context {E : Externals}.

Lemma with_Members_same (sc : StandupConfig) : with_Members sc (Members sc) = sc.
Proof. by destruct sc. Qed.

Lemma deduplicated_append_present (sc : StandupConfig) (usernames : list string) :
  (∀ u, u ∈ usernames → u ∈ Members sc) →
  deduplicated (with_Members sc (Members sc ++ usernames)%list) = deduplicated sc.
Proof.
  intros Hsub. unfold deduplicated, with_Members. simpl.
  by rewrite UniqString_app_present.
Qed.

(** C10: for a channel with a standup config, [addStandupMembers] with
    user ids that are all among the config's [Members] already succeeds
    (the store accepting the write, the two times of day surviving their
    JSON encoding) and leaves the set of persisted members as it was; when
    the stored [Members] held no duplicate, the persisted config is the
    very same. *)
Theorem addStandupMembers_present_members (w : World) (channelID : string)
    (standupConfig : StandupConfig) (usernames : list string) :
  GetStandupConfig w channelID = inl (Some standupConfig) →
  kvSetErr w (configKey (ChannelId standupConfig)) = None →
  OTime_UnmarshalJSON (OTime_MarshalJSON (WindowOpenTime standupConfig))
  = Some (WindowOpenTime standupConfig) →
  OTime_UnmarshalJSON (OTime_MarshalJSON (WindowCloseTime standupConfig))
  = Some (WindowCloseTime standupConfig) →
  (∀ u, u ∈ usernames → u ∈ Members standupConfig) →
  ∃ w' persisted,
    addStandupMembers w usernames channelID = (w', None)
    ∧ GetStandupConfig w' channelID = inl (Some persisted)
    ∧ (∀ u, u ∈ Members persisted ↔ u ∈ Members standupConfig)
    ∧ (NoDup (Members standupConfig) → persisted = standupConfig).
Proof.
  intros Hcfg Hset Ho Hc Hsub.
  pose proof (GetStandupConfig_inl_kvGetErr _ _ _ Hcfg) as Hget.
  unfold addStandupMembers. rewrite Hcfg.
  rewrite SaveStandupConfig_ok by done.
  rewrite deduplicated_append_present by done.
  change (ChannelId (with_Members standupConfig (Members standupConfig ++ usernames)%list))
    with (ChannelId standupConfig).
  eexists _. 
  destruct (decide (configKey (ChannelId standupConfig) = configKey channelID)) as [Heq|Hne].
  - exists (deduplicated standupConfig). split; [reflexivity|]. split.
    + apply GetStandupConfig_stored; [done| |done|done].
      rewrite Heq. by rewrite lookup_insert_eq.
    + split.
      * intros u. apply elem_of_UniqString.
      * intros Hnd. unfold deduplicated.
        rewrite UniqString_NoDup by done. apply with_Members_same.
  - exists standupConfig. split; [reflexivity|]. split.
    + by rewrite GetStandupConfig_other_key.
    + done.
Qed.

End AddMembers.

(** Adding present members again leaves [config0] as the persisted config. *)
Lemma addStandupMembers_present_members_witness :
  ∃ w',
    @addStandupMembers Ref.externals Ref.world1 ["u-bob"; "u-alice"; "u-bob"] "town-square"
    = (w', None)
    ∧ @GetStandupConfig Ref.externals w' "town-square" = inl (Some Ref.config0).
Proof.
  destruct (@addStandupMembers_present_members Ref.externals Ref.world1 "town-square"
              Ref.config0 ["u-bob"; "u-alice"; "u-bob"])
    as (w' & persisted & Hadd & Hget & _ & Hsame).
  - vm_compute. reflexivity.
  - reflexivity.
  - vm_compute. reflexivity.
  - vm_compute. reflexivity.
  - intros u Hu. apply (bool_decide_unpack _).
    revert u Hu. apply Forall_forall. apply (bool_decide_unpack _). vm_compute. reflexivity.
  - exists w'. split; [exact Hadd|]. rewrite Hget.
    rewrite Hsame; [reflexivity|]. apply (bool_decide_unpack _). vm_compute. reflexivity.
Defined.

(** ** The add-members command *)

Section AddMembersCommand.
Context {E : Externals}.

Lemma with_channelMembers_same (w : World) :
  with_channelMembers w (channelMembers w) = w.
Proof. by destruct w. Qed.

(** The loop tries every user in turn, whatever happened to the others. *)
Lemma addChannelMembers_loop_spec (userIds : list string) :
  ∀ (w : World) (channelID : string) (addedUsers notAddedUsers : list string),
    addChannelMembers_loop w channelID userIds addedUsers notAddedUsers
    = (with_channelMembers w
         (list_to_set (pair channelID <$> accepted w channelID userIds)
          ∪ channelMembers w),
       (addedUsers ++ accepted w channelID userIds)%list,
       (notAddedUsers ++ refused w channelID userIds)%list).
Proof.
  induction userIds as [|userId rest IH]; intros w channelID addedUsers notAddedUsers.
  - simpl. unfold accepted, refused. simpl.
    rewrite !app_nil_r, (left_id_L ∅ (∪)). by rewrite with_channelMembers_same.
  - simpl. unfold AddChannelMember, accepted, refused. rewrite !filter_cons.
    destruct (addMemberErr w channelID userId) as [e|] eqn:Herr.
    + rewrite IH. rewrite decide_False by done. rewrite decide_True by done.
      by rewrite <- app_assoc.
    + rewrite IH. rewrite decide_True by done. rewrite decide_False by naive_solver.
      unfold accepted, refused. simpl. rewrite <- app_assoc. simpl.
      do 2 f_equal. unfold with_channelMembers. simpl. f_equal. set_solver.
Qed.

Lemma addChannelMembers_spec (w : World) (userIds : list string) (channelID : string) :
  addChannelMembers w userIds channelID
  = (with_channelMembers w
       (list_to_set (pair channelID <$> accepted w channelID userIds)
        ∪ channelMembers w),
     accepted w channelID userIds,
     refused w channelID userIds).
Proof. unfold addChannelMembers. by rewrite addChannelMembers_loop_spec. Qed.

(** The map that the validation builds, when it builds one. *)
Lemma resolveUsernames_inl (w : World) (args : list string) :
  ∀ (userIds m : gmap string string),
    resolveUsernames w userIds args = inl m →
    ∀ name id,
      m !! name = Some id ↔
        userIds !! name = Some id
        ∨ (userIds !! name = None
           ∧ (∃ arg, arg ∈ args ∧ TrimLeftAt arg = name)
           ∧ GetUserByUsername w name = Some id).
Proof.
  induction args as [|arg rest IH]; intros userIds m Hres name id; simpl in Hres.
  - injection Hres as <-. split; [by left|]. intros [?|(_ & (a & []%elem_of_nil & _) & _)]. done.
  - destruct (userIds !! TrimLeftAt arg) as [known|] eqn:Hknown.
    + rewrite (IH _ _ Hres). split.
      * intros [?|(Hnone & (a & Ha & Htrim) & Hid)]; [by left|].
        right. split; [done|]. split; [|done]. exists a. split; [by right|done].
      * intros [?|(Hnone & (a & Ha & Htrim) & Hid)]; [by left|].
        right. split; [done|]. split; [|done].
        apply elem_of_cons in Ha as [->|Ha]; [congruence|]. by exists a.
    + destruct (GetUserByUsername w (TrimLeftAt arg)) as [userId|] eqn:Huser; [|done].
      rewrite (IH _ _ Hres). destruct (decide (TrimLeftAt arg = name)) as [<-|Hne].
      * rewrite lookup_insert_eq. split.
        -- intros [[= <-]|(? & _)]; [|done].
           right. split; [done|]. split; [|done]. exists arg. split; [left|done].
        -- intros [?|(_ & _ & Hid)]; [congruence|]. left. congruence.
      * rewrite lookup_insert_ne by done. split.
        -- intros [?|(Hnone & (a & Ha & Htrim) & Hid)]; [by left|].
           right. split; [done|]. split; [|done]. exists a. split; [by right|done].
        -- intros [?|(Hnone & (a & Ha & Htrim) & Hid)]; [by left|].
           right. split; [done|]. split; [|done].
           apply elem_of_cons in Ha as [->|Ha]; [done|]. by exists a.
Qed.

(** It builds one when every username is known. *)
Lemma resolveUsernames_total (w : World) (args : list string) :
  ∀ userIds : gmap string string,
    (∀ arg, arg ∈ args → is_Some (GetUserByUsername w (TrimLeftAt arg))) →
    ∃ m, resolveUsernames w userIds args = inl m.
Proof.
  induction args as [|arg rest IH]; intros userIds Hknown; simpl; [by eexists|].
  assert (∀ a, a ∈ rest → is_Some (GetUserByUsername w (TrimLeftAt a))) as Hrest
    by (intros a Ha; apply Hknown; by right).
  destruct (userIds !! TrimLeftAt arg); [by apply IH|].
  destruct (Hknown arg ltac:(left)) as [userId ->]. by apply IH.
Qed.

End AddMembersCommand.

(** C7 as stated fails: one username that does not resolve ends the whole
    command at validation; the response is no summary, and the user whose
    name did resolve is not added to the channel. *)
Lemma add_members_unknown_user_fails_batch :
  runCommand validateAddMembers (@executeAddMembers Ref.externals)
    Ref.world1 ["@alice"; "ghost"] Ref.context0
  = Returns (Ref.world1, SendEphemeralText "Couldn't find user with username: ghost")
  ∧ addMemberErr Ref.world1 "town-square" "u-alice" = None
  ∧ ("town-square", "u-alice") ∉ channelMembers Ref.world1.
Proof.
  split; [vm_compute; reflexivity|]. split; [reflexivity|].
  apply (bool_decide_unpack _). vm_compute. reflexivity.
Qed.

(** ** The report command *)

Section ReportCommand.
Context {E : Externals} {N : Notification}.

(** C6: in the validate phase of the report command, for a channel with a
    standup config: with no argument the request is for today's date in
    the timezone of the config, with private visibility; with a single
    argument that is not a visibility token, that argument is parsed as the
    date and the visibility is private; with a single visibility token
    ("public" or "private" once lowered) the date is today's in the
    timezone of the config, with that visibility.  Today's date is what
    [time.Parse] reads back from [otime.Now(timezone).Format(dateLayout)]. *)
Theorem validateCommandStandup_defaults (w : World) (context : Context)
    (standupConfig : StandupConfig) :
  let today := FormatDate (Now (clock w) (Timezone standupConfig)) in
  GetStandupConfig w (model.ChannelId (CommandArgs context)) = inl (Some standupConfig) →
  ToLower ReportVisibilityPublic = ReportVisibilityPublic →
  ToLower ReportVisibilityPrivate = ReportVisibilityPrivate →
  (∀ date,
     ParseDate today = Some date →
     validateCommandStandup w [] context
     = validated context ReportVisibilityPrivate [date])
  ∧ (∀ arg date,
       ToLower arg ≠ ReportVisibilityPublic →
       ToLower arg ≠ ReportVisibilityPrivate →
       ParseDate arg = Some date →
       validateCommandStandup w [arg] context
       = validated context ReportVisibilityPrivate [date])
  ∧ (∀ arg date,
       ToLower arg = ReportVisibilityPublic ∨ ToLower arg = ReportVisibilityPrivate →
       ParseDate today = Some date →
       validateCommandStandup w [arg] context
       = validated context (ToLower arg) [date]).
Proof.
  intros today Hcfg Hpublic Hprivate.
  unfold validateCommandStandup, validated. rewrite Hcfg.
  split; [|split].
  - intros date Hdate. simpl. fold today. rewrite Hdate. simpl.
    by rewrite Hprivate.
  - intros arg date Hnpub Hnpriv Hdate. simpl.
    rewrite bool_decide_eq_false_2 by done.
    rewrite bool_decide_eq_false_2 by done. simpl.
    rewrite Hdate. simpl. by rewrite Hprivate.
  - intros arg date Htoken Hdate. simpl.
    assert (ToLower (ToLower arg) = ToLower arg) as Hidem
      by (destruct Htoken as [-> | ->]; done).
    destruct Htoken as [Htoken|Htoken].
    + rewrite (bool_decide_eq_true_2 _ Htoken). simpl.
      fold today. rewrite Hdate. simpl. by rewrite Hidem.
    + rewrite (bool_decide_eq_true_2 (ToLower arg = ReportVisibilityPrivate) Htoken).
      rewrite andb_false_r.
      simpl. fold today. rewrite Hdate. simpl. by rewrite Hidem.
Qed.

End ReportCommand.

(** The three defaults, at 20:00 UTC on 2024-01-01 in an Asia/Kolkata channel. *)
Lemma validateCommandStandup_defaults_witness :
  @validateCommandStandup Ref.externals Ref.world1 [] Ref.context0
  = validated Ref.context0 "private" [Ref.day 2024 1 2]
  ∧ @validateCommandStandup Ref.externals Ref.world1 ["31-12-2023"] Ref.context0
    = validated Ref.context0 "private" [Ref.day 2023 12 31]
  ∧ @validateCommandStandup Ref.externals Ref.world1 ["PUBLIC"] Ref.context0
    = validated Ref.context0 "public" [Ref.day 2024 1 2].
Proof.
  destruct (@validateCommandStandup_defaults Ref.externals Ref.world1 Ref.context0
              (deduplicated Ref.config0))
    as (Hnone & Hdate & Htoken);
    [vm_compute; reflexivity|reflexivity|reflexivity|].
  split; [|split].
  - apply Hnone. vm_compute. reflexivity.
  - apply Hdate; [vm_compute; discriminate|vm_compute; discriminate|].
    vm_compute. reflexivity.
  - apply (Htoken "PUBLIC"); [left; vm_compute; reflexivity|].
    vm_compute. reflexivity.
Defined.

Section ReportExecution.
Context {E : Externals} {N : Notification}.

(** The loop sends every date in turn; the world after it is the world
    after all the sends, failed or not. *)
Lemma sendReports_foldl (dates : list OTime) :
  ∀ (w : World) (channelId visibility userId : string),
    sendReports w channelId visibility userId dates
    = foldl (λ w' date,
               (SendStandupReport w' [channelId] date visibility userId false).1)
            w dates.
Proof.
  induction dates as [|date rest IH]; intros w channelId visibility userId; simpl;
    [done|].
  destruct (SendStandupReport w [channelId] date visibility userId false)
    as [w' [e|]]; simpl; apply IH.
Qed.

Lemma sendReports_app (pre post : list OTime) (w : World)
    (channelId visibility userId : string) :
  sendReports w channelId visibility userId (pre ++ post)%list
  = sendReports (sendReports w channelId visibility userId pre)
      channelId visibility userId post.
Proof. rewrite !sendReports_foldl. apply foldl_app. Qed.

(** C8: [executeCommandStandup], on the visibility and the dates that the
    validation stored, sends the report of every date in turn: a date whose
    [SendStandupReport] fails is followed by the sends of all the dates
    after it, and the command returns the ephemeral response
    "Standup reports generated" however many sends failed. *)
Theorem executeCommandStandup_best_effort (w : World) (args : list string)
    (context : Context) (visibility : string) (dates : list OTime) :
  let channelId := model.ChannelId (CommandArgs context) in
  let userId := model.UserId (CommandArgs context) in
  let send w' date := SendStandupReport w' [channelId] date visibility userId false in
  Props context !! "visibility" = Some (PString visibility) →
  Props context !! "dates" = Some (PTimes dates) →
  executeCommandStandup w args context
  = Returns (foldl (λ w' date, (send w' date).1) w dates,
             model.mkCommandResponse model.COMMAND_RESPONSE_TYPE_EPHEMERAL
               "Standup reports generated")
  ∧ ∀ pre date post err,
      dates = (pre ++ date :: post)%list →
      (send (foldl (λ w' date, (send w' date).1) w pre) date).2 = Some err →
      foldl (λ w' date, (send w' date).1) w dates
      = foldl (λ w' date, (send w' date).1)
          (send (foldl (λ w' date, (send w' date).1) w pre) date).1 post.
Proof.
  intros channelId userId send Hvis Hdates. split.
  - unfold executeCommandStandup. rewrite Hvis, Hdates.
    fold channelId userId. by rewrite sendReports_foldl.
  - intros pre date post err -> _. by rewrite foldl_app.
Qed.

End ReportExecution.

(** Of three dates the second fails to send; the third is sent all the same. *)
Lemma executeCommandStandup_best_effort_witness :
  ∃ w',
    @executeCommandStandup Ref.notification Ref.world1 [] Ref.context_report
    = Returns (w', model.mkCommandResponse model.COMMAND_RESPONSE_TYPE_EPHEMERAL
                     "Standup reports generated")
    ∧ (@SendStandupReport Ref.notification
         (@SendStandupReport Ref.notification Ref.world1 ["town-square"]
            (Ref.day 2023 12 30) "private" "u-alice" false).1
         ["town-square"] (Ref.day 2023 12 31) "private" "u-alice" false).2
      = Some "delivery failed"
    ∧ posts w' = [("town-square", "private report for 20240101");
                  ("town-square", "private report for 20231230")].
Proof.
  destruct (@executeCommandStandup_best_effort Ref.notification Ref.world1 []
              Ref.context_report "private"
              [Ref.day 2023 12 30; Ref.day 2023 12 31; Ref.day 2024 1 1])
    as [Hrun _]; [reflexivity|reflexivity|].
  eexists. split; [exact Hrun|].
  split; vm_compute; reflexivity.
Defined.

(** * Further properties of the config store *)

Section ConfigStoreMore.
Context {E : Externals}.

(** What a successful [SaveStandupConfig] did. *)
Lemma SaveStandupConfig_inl_inv (w w' : World) (sc saved : StandupConfig) :
  SaveStandupConfig w sc = (w', inl saved) →
  kvSetErr w (configKey (ChannelId sc)) = None
  ∧ saved = deduplicated sc
  ∧ w' = with_kv w (<[configKey (ChannelId sc) := StandupConfig_Marshal (deduplicated sc)]>
                      (kv w)).
Proof.
  intros Hsave.
  destruct (kvSetErr w (configKey (ChannelId sc))) as [e|] eqn:Hset.
  - by rewrite (SaveStandupConfig_err w sc e) in Hsave.
  - rewrite SaveStandupConfig_ok in Hsave by done. by injection Hsave as <- <-.
Qed.

Lemma deduplicated_idemp (sc : StandupConfig) :
  deduplicated (deduplicated sc) = deduplicated sc.
Proof. unfold deduplicated, with_Members. simpl. by rewrite UniqString_idemp. Qed.

Lemma deduplicated_valid (sc : StandupConfig) :
  NoDup (Members sc) → deduplicated sc = sc.
Proof.
  intros Hnd. unfold deduplicated. rewrite UniqString_NoDup by done.
  by destruct sc.
Qed.

(** X1: [StandupConfig.IsValid] returns nil for exactly the configs that
    have a channel id, two non-zero window times with the open time not
    after the close time, a non-empty timezone that [time.LoadLocation]
    resolves, a report format among [config.ReportFormats], at least one
    section, and no duplicate among the sections or among the members. *)
Theorem StandupConfig_IsValid_accepts_exactly (sc : StandupConfig) :
  StandupConfig_IsValid sc = None ↔
    ChannelId sc ≠ ""
    ∧ WindowOpenTime sc ≠ emptyTime
    ∧ WindowCloseTime sc ≠ emptyTime
    ∧ instant (WindowOpenTime sc) ≤ instant (WindowCloseTime sc)
    ∧ Timezone sc ≠ ""
    ∧ ReportFormat sc ∈ ReportFormats
    ∧ is_Some (LoadLocation (Timezone sc))
    ∧ (1 ≤ length (Sections sc))%nat
    ∧ NoDup (Sections sc)
    ∧ NoDup (Members sc).
Proof. apply StandupConfig_IsValid_nil_iff. Qed.

(** X2: the config that a successful [SaveStandupConfig] returns and stores
    passes [IsValid] exactly when the config given passes it with its
    members left out: the save repairs duplicate members and nothing
    else. *)
Theorem SaveStandupConfig_repairs_members_only (w w' : World) (sc saved : StandupConfig) :
  SaveStandupConfig w sc = (w', inl saved) →
  (StandupConfig_IsValid saved = None ↔ StandupConfig_IsValid (with_Members sc []) = None).
Proof.
  intros (_ & -> & _)%SaveStandupConfig_inl_inv.
  rewrite !StandupConfig_IsValid_nil_iff. unfold deduplicated. simpl.
  pose proof (NoDup_UniqString (Members sc)). pose proof (NoDup_nil_2 (A:=string)).
  naive_solver.
Qed.

(** X3: for a config that [IsValid] accepts, saving and then getting (the
    store accepting both calls, the two times of day surviving their JSON
    encoding) returns the config itself, members included. *)
Theorem SaveStandupConfig_valid_roundtrip (w : World) (sc : StandupConfig) :
  StandupConfig_IsValid sc = None →
  kvSetErr w (configKey (ChannelId sc)) = None →
  kvGetErr w (configKey (ChannelId sc)) = None →
  OTime_UnmarshalJSON (OTime_MarshalJSON (WindowOpenTime sc)) = Some (WindowOpenTime sc) →
  OTime_UnmarshalJSON (OTime_MarshalJSON (WindowCloseTime sc)) = Some (WindowCloseTime sc) →
  (SaveStandupConfig w sc).2 = inl sc
  ∧ GetStandupConfig (SaveStandupConfig w sc).1 (ChannelId sc) = inl (Some sc).
Proof.
  intros Hvalid Hset Hget Ho Hc.
  apply StandupConfig_IsValid_nil_iff in Hvalid
    as (_ & _ & _ & _ & _ & _ & _ & _ & _ & Hnd).
  rewrite SaveStandupConfig_ok by done. rewrite deduplicated_valid by done. simpl.
  split; [done|].
  apply GetStandupConfig_stored; [done|by rewrite lookup_insert_eq|done|done].
Qed.

(** X4: [SaveStandupConfig] is idempotent: saving the config that a
    successful save returned succeeds again, returns the same config and
    leaves the world as the first save left it. *)
Theorem SaveStandupConfig_idempotent (w w' : World) (sc saved : StandupConfig) :
  SaveStandupConfig w sc = (w', inl saved) →
  SaveStandupConfig w' saved = (w', inl saved).
Proof.
  intros (Hset & -> & ->)%SaveStandupConfig_inl_inv.
  rewrite SaveStandupConfig_ok by done.
  rewrite deduplicated_idemp.
  change (ChannelId (deduplicated sc)) with (ChannelId sc). simpl.
  by rewrite with_kv_with_kv, insert_insert_eq.
Qed.

(** X5: [SaveStandupConfig] touches one key of the store and nothing else
    of the server: the config of every channel with another config key,
    the registry (its key being another one) and every submission stored
    under another key read as before, and the channel memberships and the
    delivered messages are unchanged. *)
Theorem SaveStandupConfig_frame (w : World) (sc : StandupConfig) :
  let w' := (SaveStandupConfig w sc).1 in
  (∀ channelID,
     configKey channelID ≠ configKey (ChannelId sc) →
     GetStandupConfig w' channelID = GetStandupConfig w channelID)
  ∧ (registryKey ≠ configKey (ChannelId sc) →
     GetStandupChannels w' = GetStandupChannels w)
  ∧ (∀ userID channelID date,
       standupKey (GetDateString date) channelID userID ≠ configKey (ChannelId sc) →
       GetUserStandup w' userID channelID date = GetUserStandup w userID channelID date)
  ∧ channelMembers w' = channelMembers w
  ∧ posts w' = posts w.
Proof.
  intros w'. subst w'.
  destruct (kvSetErr w (configKey (ChannelId sc))) as [e|] eqn:Hset.
  - by rewrite (SaveStandupConfig_err w sc e).
  - rewrite SaveStandupConfig_ok by done. simpl. repeat split.
    + intros channelID Hne. by apply GetStandupConfig_other_key.
    + intros Hne. by apply GetStandupChannels_other_key.
    + intros userID channelID date Hne.
      unfold GetUserStandup, KVGet. fold (standupKey (GetDateString date) channelID userID).
      simpl. by rewrite lookup_insert_ne.
Qed.

End ConfigStoreMore.

(** [config0] meets every condition, so it is accepted. *)
Lemma StandupConfig_IsValid_accepts_exactly_witness :
  @StandupConfig_IsValid Ref.externals Ref.config0 = None.
Proof.
  apply (proj2 (@StandupConfig_IsValid_accepts_exactly Ref.externals Ref.config0)).
  repeat split; try (vm_compute; discriminate).
  - apply (bool_decide_unpack _). vm_compute. reflexivity.
  - vm_compute. eauto.
  - simpl. lia.
  - apply (bool_decide_unpack _). vm_compute. reflexivity.
  - apply (bool_decide_unpack _). vm_compute. reflexivity.
Defined.

(** Saving [config0] with a member listed twice gives a valid config. *)
Lemma SaveStandupConfig_repairs_members_only_witness :
  @StandupConfig_IsValid Ref.externals Ref.config_duplicate_member ≠ None
  ∧ @StandupConfig_IsValid Ref.externals
      (deduplicated Ref.config_duplicate_member) = None.
Proof.
  split; [vm_compute; discriminate|].
  apply (proj2 (@SaveStandupConfig_repairs_members_only Ref.externals Ref.world0 _
                  Ref.config_duplicate_member _ eq_refl)).
  vm_compute. reflexivity.
Defined.

(** [config0] is read back as it was saved. *)
Lemma SaveStandupConfig_valid_roundtrip_witness :
  @GetStandupConfig Ref.externals
    (@SaveStandupConfig Ref.externals Ref.world0 Ref.config0).1 "town-square"
  = inl (Some Ref.config0).
Proof.
  apply (@SaveStandupConfig_valid_roundtrip Ref.externals Ref.world0 Ref.config0);
    vm_compute; reflexivity.
Defined.

(** Saving the deduplicated config again changes nothing. *)
Lemma SaveStandupConfig_idempotent_witness :
  let r := @SaveStandupConfig Ref.externals Ref.world0 Ref.config_duplicate_member in
  @SaveStandupConfig Ref.externals r.1 (deduplicated Ref.config_duplicate_member)
  = (r.1, inl (deduplicated Ref.config_duplicate_member)).
Proof.
  apply (@SaveStandupConfig_idempotent Ref.externals Ref.world0 _
           Ref.config_duplicate_member _ eq_refl).
Defined.

(** Saving the config of another channel leaves that of town-square. *)
Lemma SaveStandupConfig_frame_witness :
  @GetStandupConfig Ref.externals
    (@SaveStandupConfig Ref.externals Ref.world1 Ref.config_other_channel).1 "town-square"
  = @GetStandupConfig Ref.externals Ref.world1 "town-square".
Proof.
  apply (proj1 (@SaveStandupConfig_frame Ref.externals Ref.world1
                  Ref.config_other_channel)).
  vm_compute. discriminate.
Defined.

(** * Further properties of [UserStandup.IsValid] *)

(** X6: [UserStandup.IsValid] panics, on the dereference of a nil section
    pointer, exactly when the submission has a user id and a channel id,
    the channel exists, and some section of the map is nil; before that
    point the three earlier checks answer with an error. *)
Theorem UserStandup_IsValid_panics_iff (w : World) (us : UserStandup) :
  UserStandup_IsValid w us = Panics ↔
    UserID us ≠ "" ∧ ChannelID us ≠ "" ∧ ChannelID us ∈ channels w
    ∧ ∃ k, Standup us !! k = Some None.
Proof.
  unfold UserStandup_IsValid, GetChannel.
  pose proof (maxLen_of_spec (Standup us)) as Hspec.
  destruct (decide (UserID us = "")); [naive_solver|].
  destruct (decide (ChannelID us = "")); [naive_solver|].
  destruct (decide (ChannelID us ∈ channels w)); [|naive_solver].
  destruct (maxLen_of (Standup us)) as [mx|].
  - destruct Hspec as [Hall _]. split; [by destruct (decide (mx = 0%nat))|].
    intros (_ & _ & _ & k & Hk). destruct (Hall k _ Hk) as (? & ? & _). done.
  - naive_solver.
Qed.

(** X7: [UserStandup.IsValid] returns nil exactly when the submission has a
    user id and a channel id, the channel exists, no section is nil, and
    some section has at least one entry. *)
Theorem UserStandup_IsValid_accepts_iff (w : World) (us : UserStandup) :
  UserStandup_IsValid w us = Returns None ↔
    UserID us ≠ "" ∧ ChannelID us ≠ "" ∧ ChannelID us ∈ channels w
    ∧ (∀ k, Standup us !! k ≠ Some None)
    ∧ ∃ k tasks, Standup us !! k = Some (Some tasks) ∧ (1 ≤ length tasks)%nat.
Proof.
  unfold UserStandup_IsValid, GetChannel.
  pose proof (maxLen_of_spec (Standup us)) as Hspec.
  destruct (decide (UserID us = "")); [naive_solver|].
  destruct (decide (ChannelID us = "")); [naive_solver|].
  destruct (decide (ChannelID us ∈ channels w)); [|naive_solver].
  destruct (maxLen_of (Standup us)) as [mx|].
  - destruct Hspec as [Hall Hmax]. destruct (decide (mx = 0%nat)) as [->|Hpos].
    + split; [done|]. intros (_ & _ & _ & _ & k & tasks & Hk & Hlen).
      destruct (Hall k _ Hk) as (ts & [= <-] & Hle). lia.
    + split; [|done]. intros _. repeat split; [done..| |].
      * intros k Hk. destruct (Hall k _ Hk) as (? & ? & _). done.
      * destruct Hmax as [?|(k & tasks & Hk & Hlen)]; [done|].
        exists k, tasks. split; [done|lia].
  - destruct Hspec as (k & Hk). split; [done|].
    intros (_ & _ & _ & Hnonnil & _). by apply Hnonnil in Hk.
Qed.

(** A nil section beside a filled one makes the check panic. *)
Lemma UserStandup_IsValid_panics_iff_witness :
  UserStandup_IsValid Ref.world0 Ref.standup_nil_section = Panics.
Proof.
  apply (proj2 (UserStandup_IsValid_panics_iff Ref.world0 Ref.standup_nil_section)).
  split; [vm_compute; discriminate|]. split; [vm_compute; discriminate|].
  split; [apply (bool_decide_unpack _); vm_compute; reflexivity|].
  exists "Today". vm_compute. reflexivity.
Defined.

(** An accepted submission has a section with an entry. *)
Lemma UserStandup_IsValid_accepts_iff_witness :
  ∃ k tasks, Standup Ref.standup0 !! k = Some (Some tasks) ∧ (1 ≤ length tasks)%nat.
Proof.
  apply (proj1 (UserStandup_IsValid_accepts_iff Ref.world0 Ref.standup0)).
  vm_compute. reflexivity.
Defined.

(** * Further properties of the channel registry *)

Section RegistryMore.
Context {E : Externals}.






(** X9: an [AddStandupChannel] that returns an error has written nothing:
    the world is the one it was called in. *)
Theorem AddStandupChannel_error_no_write (w w' : World) (channelID e : string) :
  AddStandupChannel w channelID = (w', Some e) → w' = w.
Proof.
  unfold AddStandupChannel, setStandupChannels, KVSet.
  destruct (GetStandupChannels w); [|by intros [= <- _]].
  destruct (kvSetErr w (GetKeyHash CacheKeyAllStandupChannels)); [|done].
  by intros [= <- _].
Qed.

End RegistryMore.


(** A store that refuses writes is left as it was. *)
Lemma AddStandupChannel_error_no_write_witness :
  (@AddStandupChannel Ref.externals Ref.world_readonly "off-topic").1
  = Ref.world_readonly.
Proof.
  apply (@AddStandupChannel_error_no_write Ref.externals Ref.world_readonly _
           "off-topic" "store is read-only").
  reflexivity.
Defined.

(** * Further properties of the submission store *)

Section SubmissionStoreMore.
Context {E : Externals}.

Lemma SaveUserStandup_ok (w : World) (us : UserStandup) (standupConfig : StandupConfig) :
  let key := standupKey (GetDateString (Now (clock w) (Timezone standupConfig)))
               (ChannelID us) (UserID us) in
  GetStandupConfig w (ChannelID us) = inl (Some standupConfig) →
  kvSetErr w key = None →
  SaveUserStandup w us = (with_kv w (<[key := UserStandup_Marshal us]> (kv w)), None).
Proof.
  intros key Hcfg Hset. unfold SaveUserStandup. rewrite Hcfg.
  fold (standupKey (GetDateString (Now (clock w) (Timezone standupConfig)))
          (ChannelID us) (UserID us)).
  fold key. by apply KVSet_ok.
Qed.

Lemma GetUserStandup_stored (w : World) (m : gmap string JSON)
    (userID channelID : string) (date : OTime) (us : UserStandup) :
  kvGetErr w (standupKey (GetDateString date) channelID userID) = None →
  m !! standupKey (GetDateString date) channelID userID = Some (UserStandup_Marshal us) →
  GetUserStandup (with_kv w m) userID channelID date = inl (Some us).
Proof.
  intros Hget Hm. unfold GetUserStandup.
  fold (standupKey (GetDateString date) channelID userID).
  rewrite KVGet_with_kv by done. rewrite Hm.
  by rewrite UserStandup_Unmarshal_Marshal.
Qed.

(** X10: a second [SaveUserStandup] of the same user in the same channel on
    the same day replaces the first: [GetUserStandup] for that day returns
    the second submission, whole, and nothing of the first.  (The key of
    the submission is taken not to be the key of the channel's config.) *)
Theorem SaveUserStandup_replaces (w : World) (first second : UserStandup)
    (standupConfig : StandupConfig) :
  let dateKey := GetDateString (Now (clock w) (Timezone standupConfig)) in
  let key := standupKey dateKey (ChannelID first) (UserID first) in
  UserID second = UserID first →
  ChannelID second = ChannelID first →
  GetStandupConfig w (ChannelID first) = inl (Some standupConfig) →
  key ≠ configKey (ChannelID first) →
  kvSetErr w key = None →
  kvGetErr w key = None →
  ∀ date,
    GetDateString date = dateKey →
    GetUserStandup (SaveUserStandup (SaveUserStandup w first).1 second).1
      (UserID first) (ChannelID first) date
    = inl (Some second).
Proof.
  intros dateKey key Huid Hch Hcfg Hne Hset Hget date Hdate.
  rewrite (SaveUserStandup_ok w first standupConfig) by done. simpl. fold dateKey key.
  rewrite (SaveUserStandup_ok _ second standupConfig).
  - simpl. rewrite Huid, Hch. fold dateKey key.
    apply GetUserStandup_stored; rewrite Hdate; fold key; [done|].
    by rewrite lookup_insert_eq.
  - rewrite Hch. by rewrite GetStandupConfig_other_key.
  - simpl. rewrite Huid, Hch. done.
Qed.

(** X11: a [SaveUserStandup] that returns an error, whether for a failing
    read of the config, a channel without config or a refused write, has
    written nothing: the world is the one it was called in. *)
Theorem SaveUserStandup_error_no_write (w w' : World) (us : UserStandup) (e : string) :
  SaveUserStandup w us = (w', Some e) → w' = w.
Proof.
  unfold SaveUserStandup, KVSet.
  destruct (GetStandupConfig w (ChannelID us)) as [[standupConfig|]|err];
    [|by intros [= <- _]..].
  destruct (kvSetErr w _); [|done]. by intros [= <- _].
Qed.

(** X12: the key of a submission joins the channel id and the user id with
    nothing in between, so it does not tell where one ends: a submission
    saved for a channel and a user is what [GetUserStandup] returns, for
    the same day, for every other way of cutting the joined ids into a
    channel id and a user id. *)
Theorem GetUserStandup_joined_ids (w : World) (us : UserStandup)
    (standupConfig : StandupConfig) (channelID userID : string) :
  let dateKey := GetDateString (Now (clock w) (Timezone standupConfig)) in
  let key := standupKey dateKey (ChannelID us) (UserID us) in
  GetStandupConfig w (ChannelID us) = inl (Some standupConfig) →
  kvSetErr w key = None →
  kvGetErr w key = None →
  channelID +:+ userID = ChannelID us +:+ UserID us →
  ∀ date,
    GetDateString date = dateKey →
    GetUserStandup (SaveUserStandup w us).1 userID channelID date = inl (Some us).
Proof.
  intros dateKey key Hcfg Hset Hget Hjoin date Hdate.
  rewrite (SaveUserStandup_ok w us standupConfig) by done. simpl. fold dateKey key.
  assert (standupKey (GetDateString date) channelID userID = key) as Hkey.
  { unfold key, standupKey. by rewrite Hdate, Hjoin. }
  apply GetUserStandup_stored; rewrite Hkey; [done|by rewrite lookup_insert_eq].
Qed.

(** X13: [SaveUserStandup] touches one key of the store and nothing else of
    the server: the config of every channel whose config key is another
    one, the registry (its key being another one) and every submission
    stored under another key read as before. *)
Theorem SaveUserStandup_frame (w : World) (us : UserStandup)
    (standupConfig : StandupConfig) :
  let key := standupKey (GetDateString (Now (clock w) (Timezone standupConfig)))
               (ChannelID us) (UserID us) in
  let w' := (SaveUserStandup w us).1 in
  GetStandupConfig w (ChannelID us) = inl (Some standupConfig) →
  (∀ channelID,
     configKey channelID ≠ key →
     GetStandupConfig w' channelID = GetStandupConfig w channelID)
  ∧ (registryKey ≠ key → GetStandupChannels w' = GetStandupChannels w)
  ∧ (∀ userID channelID date,
       standupKey (GetDateString date) channelID userID ≠ key →
       GetUserStandup w' userID channelID date = GetUserStandup w userID channelID date).
Proof.
  intros key w' Hcfg. subst w'.
  destruct (kvSetErr w key) as [e|] eqn:Hset.
  - assert (SaveUserStandup w us = (w, Some e)) as ->; [|done].
    unfold SaveUserStandup. rewrite Hcfg. by apply KVSet_err.
  - rewrite (SaveUserStandup_ok w us standupConfig) by done. simpl. fold key.
    repeat split.
    + intros channelID Hne. by apply GetStandupConfig_other_key.
    + intros Hne. by apply GetStandupChannels_other_key.
    + intros userID channelID date Hne.
      unfold GetUserStandup, KVGet. fold (standupKey (GetDateString date) channelID userID).
      simpl. by rewrite lookup_insert_ne.
Qed.

End SubmissionStoreMore.

(** The second submission of the day is the one that is read. *)
Lemma SaveUserStandup_replaces_witness :
  @GetUserStandup Ref.externals
    (@SaveUserStandup Ref.externals
       (@SaveUserStandup Ref.externals Ref.world1 Ref.standup0).1 Ref.standup1).1
    "u-alice" "town-square" (Ref.day 2024 1 2)
  = inl (Some Ref.standup1).
Proof.
  apply (@SaveUserStandup_replaces Ref.externals Ref.world1 Ref.standup0 Ref.standup1
           (deduplicated Ref.config0));
    try reflexivity; try (vm_compute; reflexivity).
  vm_compute. discriminate.
Defined.

(** A store that refuses writes is left as it was. *)
Lemma SaveUserStandup_error_no_write_witness :
  (@SaveUserStandup Ref.externals Ref.world_readonly Ref.standup0).1 = Ref.world_readonly.
Proof.
  apply (@SaveUserStandup_error_no_write Ref.externals Ref.world_readonly _
           Ref.standup0 "store is read-only").
  vm_compute. reflexivity.
Defined.

(** The submission of [u-alice] in town-square is also that of user
    [-alice] in channel town-squareu. *)
Lemma GetUserStandup_joined_ids_witness :
  @GetUserStandup Ref.externals (@SaveUserStandup Ref.externals Ref.world1 Ref.standup0).1
    "-alice" "town-squareu" (Ref.day 2024 1 2)
  = inl (Some Ref.standup0).
Proof.
  apply (@GetUserStandup_joined_ids Ref.externals Ref.world1 Ref.standup0
           (deduplicated Ref.config0) "town-squareu" "-alice");
    try reflexivity; vm_compute; reflexivity.
Defined.

(** Filing a submission leaves the config of the channel. *)
Lemma SaveUserStandup_frame_witness :
  @GetStandupConfig Ref.externals
    (@SaveUserStandup Ref.externals Ref.world1 Ref.standup0).1 "town-square"
  = @GetStandupConfig Ref.externals Ref.world1 "town-square".
Proof.
  destruct (@SaveUserStandup_frame Ref.externals Ref.world1 Ref.standup0
              (deduplicated Ref.config0)) as [Hconfig _];
    [vm_compute; reflexivity|].
  apply Hconfig. vm_compute. discriminate.
Defined.

(** * Further properties of the add-members command *)

Section AddMembersMore.
Context {E : Externals}.

Lemma deduplicated_with_Members (sc : StandupConfig) (ms : list string) :
  deduplicated (with_Members sc ms) = with_Members sc (UniqString ms).
Proof. reflexivity. Qed.

Lemma addStandupMembers_ok (w : World) (usernames : list string) (channelID : string)
    (standupConfig : StandupConfig) :
  GetStandupConfig w channelID = inl (Some standupConfig) →
  kvSetErr w (configKey (ChannelId standupConfig)) = None →
  addStandupMembers w usernames channelID
  = (with_kv w
       (<[configKey (ChannelId standupConfig) :=
            StandupConfig_Marshal
              (with_Members standupConfig
                 (UniqString (Members standupConfig ++ usernames)%list))]> (kv w)),
     None).
Proof.
  intros Hcfg Hset. unfold addStandupMembers. rewrite Hcfg.
  rewrite SaveStandupConfig_ok by done.
  by rewrite deduplicated_with_Members.
Qed.

(** The members in place keep their places; the new ones follow. *)
Lemma UniqString_app_NoDup (a b : list string) :
  NoDup a →
  UniqString (a ++ b)%list = (a ++ UniqString_from (list_to_set a) b)%list.
Proof.
  intros Hnd. unfold UniqString. rewrite UniqString_from_app.
  rewrite (right_id_L ∅ (∪)). f_equal.
  apply UniqString_from_NoDup; [done|set_solver].
Qed.

(** X14: [addStandupMembers], for a channel whose stored config carries
    the channel's own id (the store accepting the write, the two times of
    day surviving their JSON encoding), persists the config with the user
    ids appended and deduplicated and every other field untouched.  When
    the stored members held no duplicate they keep their places, and after
    them come, once each and in order of first mention, the user ids that
    were not members yet. *)
Theorem addStandupMembers_appends_new (w : World) (channelID : string)
    (standupConfig : StandupConfig) (usernames : list string) :
  GetStandupConfig w channelID = inl (Some standupConfig) →
  ChannelId standupConfig = channelID →
  kvSetErr w (configKey channelID) = None →
  OTime_UnmarshalJSON (OTime_MarshalJSON (WindowOpenTime standupConfig))
  = Some (WindowOpenTime standupConfig) →
  OTime_UnmarshalJSON (OTime_MarshalJSON (WindowCloseTime standupConfig))
  = Some (WindowCloseTime standupConfig) →
  ∃ w',
    addStandupMembers w usernames channelID = (w', None)
    ∧ GetStandupConfig w' channelID
      = inl (Some (with_Members standupConfig
                     (UniqString (Members standupConfig ++ usernames)%list)))
    ∧ (NoDup (Members standupConfig) →
       ∃ new,
         UniqString (Members standupConfig ++ usernames)%list
         = (Members standupConfig ++ new)%list
         ∧ NoDup new
         ∧ ∀ u, u ∈ new ↔ u ∈ usernames ∧ u ∉ Members standupConfig).
Proof.
  intros Hcfg Hid Hset Ho Hc.
  pose proof (GetStandupConfig_inl_kvGetErr _ _ _ Hcfg) as Hget.
  eexists. split; [apply addStandupMembers_ok; [done|by rewrite Hid]|].
  split.
  - rewrite Hid. apply GetStandupConfig_stored; [done|by rewrite lookup_insert_eq|done|done].
  - intros Hnd. eexists. split; [by apply UniqString_app_NoDup|].
    split; [apply NoDup_UniqString_from|].
    intros u. rewrite elem_of_UniqString_from. set_solver.
Qed.

(** X15: an [addStandupMembers] that returns an error, whether for a
    failing read, a channel without config or a refused write, has written
    nothing: the world is the one it was called in. *)
Theorem addStandupMembers_error_no_write (w w' : World) (usernames : list string)
    (channelID e : string) :
  addStandupMembers w usernames channelID = (w', Some e) → w' = w.
Proof.
  unfold addStandupMembers.
  destruct (GetStandupConfig w channelID) as [[standupConfig|]|err];
    [|by intros [= <- _]..].
  unfold SaveStandupConfig, KVSet.
  destruct (kvSetErr w _); [|done]. by intros [= <- _].
Qed.

(** X16: in a channel without standup config, [executeAddMembers] still
    adds to the channel every user the server accepts, and then answers
    with the error of the standup update instead of the summary: the
    additions to the channel are not undone. *)
Theorem executeAddMembers_not_configured (w : World) (args : list string)
    (context : Context) (userIds : list string) :
  let channelID := model.ChannelId (CommandArgs context) in
  Props context !! "userIds" = Some (PStrings userIds) →
  GetStandupConfig w channelID = inl None →
  executeAddMembers w args context
  = Returns
      (with_channelMembers w
         (list_to_set (pair channelID <$> accepted w channelID userIds)
          ∪ channelMembers w),
       SendEphemeralText
         "Error occurred while adding standup members: standup is not configured for this channel").
Proof.
  intros channelID Hprops Hcfg. unfold executeAddMembers. rewrite Hprops.
  fold channelID. rewrite addChannelMembers_spec. unfold addStandupMembers.
  change (GetStandupConfig (with_channelMembers w _) channelID)
    with (GetStandupConfig w channelID).
  by rewrite Hcfg.
Qed.

End AddMembersMore.

(** * Further properties of [validateAddMembers] *)

(** Every username the loop has stored or walks over is known when the
    loop ends well. *)
Lemma resolveUsernames_inl_known (w : World) (args : list string) :
  ∀ (userIds m : gmap string string),
    resolveUsernames w userIds args = inl m →
    ∀ arg, arg ∈ args →
      is_Some (userIds !! TrimLeftAt arg)
      ∨ is_Some (GetUserByUsername w (TrimLeftAt arg)).
Proof.
  induction args as [|a rest IH]; intros userIds m Hres arg Hin; simpl in Hres.
  - by apply elem_of_nil in Hin.
  - destruct (userIds !! TrimLeftAt a) as [known|] eqn:Hknown.
    + apply elem_of_cons in Hin as [->|Hin]; [left; by rewrite Hknown|].
      by apply (IH _ _ Hres).
    + destruct (GetUserByUsername w (TrimLeftAt a)) as [userId|] eqn:Huser; [|done].
      apply elem_of_cons in Hin as [->|Hin]; [right; by rewrite Huser|].
      destruct (IH _ _ Hres arg Hin) as [Hs|Hs]; [|by right].
      destruct (decide (TrimLeftAt a = TrimLeftAt arg)) as [Heq|Hne].
      * right. rewrite <- Heq. by rewrite Huser.
      * left. by rewrite lookup_insert_ne in Hs.
Qed.

(** The loop stops at the first username that is not known. *)
Lemma resolveUsernames_first_unknown (w : World) (pre : list string) :
  ∀ (userIds : gmap string string) (bad : string) (post : list string),
    (∀ name, is_Some (userIds !! name) → is_Some (GetUserByUsername w name)) →
    (∀ arg, arg ∈ pre → is_Some (GetUserByUsername w (TrimLeftAt arg))) →
    GetUserByUsername w (TrimLeftAt bad) = None →
    resolveUsernames w userIds (pre ++ bad :: post) = inr (TrimLeftAt bad).
Proof.
  induction pre as [|a rest IH]; intros userIds bad post Hinv Hpre Hbad; simpl.
  - destruct (userIds !! TrimLeftAt bad) as [known|] eqn:Hknown.
    + destruct (Hinv (TrimLeftAt bad)) as [x Hx]; [by rewrite Hknown|]. congruence.
    + by rewrite Hbad.
  - assert (∀ arg, arg ∈ rest → is_Some (GetUserByUsername w (TrimLeftAt arg))) as Hrest
      by (intros arg Harg; apply Hpre; by right).
    destruct (userIds !! TrimLeftAt a); [by apply IH|].
    destruct (Hpre a ltac:(left)) as [userId Huser]. rewrite Huser.
    apply IH; [|done|done].
    intros name [x Hx]. destruct (decide (TrimLeftAt a = name)) as [<-|Hne]; [by eexists|].
    rewrite lookup_insert_ne in Hx by done. apply Hinv. by eexists.
Qed.

(** The loop looks at the usernames with their leading ['@'] removed only. *)
Lemma resolveUsernames_trimmed (w : World) (args : list string) :
  ∀ (args' : list string) (userIds : gmap string string),
    TrimLeftAt <$> args = TrimLeftAt <$> args' →
    resolveUsernames w userIds args = resolveUsernames w userIds args'.
Proof.
  induction args as [|a rest IH]; intros [|a' rest'] userIds Heq; simpl in *;
    try done.
  injection Heq as Ha Hrest. rewrite Ha.
  destruct (userIds !! TrimLeftAt a'); [by apply IH|].
  destruct (GetUserByUsername w (TrimLeftAt a')); [by apply IH|done].
Qed.

(** X17: [validateAddMembers] lets the command through (returns no
    response) exactly when there is at least one argument and every
    argument, its leading ['@'] removed, is the username of a user. *)
Theorem validateAddMembers_passes_iff (w : World) (args : list string) (context : Context) :
  (validateAddMembers w args context).2 = None ↔
    args ≠ [] ∧ ∀ arg, arg ∈ args → is_Some (GetUserByUsername w (TrimLeftAt arg)).
Proof.
  unfold validateAddMembers.
  destruct args as [|a rest] eqn:Hargs; [simpl; naive_solver|]. rewrite <- Hargs.
  assert ((length args <? 1)%nat = false) as -> by (subst args; done).
  split.
  - destruct (resolveUsernames w ∅ args) as [m|name] eqn:Hres; [|done].
    intros _. split; [by subst args|]. intros arg Harg.
    destruct (resolveUsernames_inl_known _ _ _ _ Hres arg Harg) as [[x Hx]|?]; [|done].
    by rewrite lookup_empty in Hx.
  - intros [_ Hknown]. by destruct (resolveUsernames_total w args ∅ Hknown) as [m ->].
Qed.

(** X18: when some argument is not the username of a user,
    [validateAddMembers] answers with the first such username, its leading
    ['@'] removed, and leaves the props of the context as they were. *)
Theorem validateAddMembers_first_unknown (w : World) (pre post : list string)
    (bad : string) (context : Context) :
  (∀ arg, arg ∈ pre → is_Some (GetUserByUsername w (TrimLeftAt arg))) →
  GetUserByUsername w (TrimLeftAt bad) = None →
  validateAddMembers w (pre ++ bad :: post) context
  = (Props context,
     Some (SendEphemeralText ("Couldn't find user with username: " +:+ TrimLeftAt bad))).
Proof.
  intros Hpre Hbad. unfold validateAddMembers.
  assert ((length (pre ++ bad :: post) <? 1)%nat = false) as ->.
  { apply Nat.ltb_ge. rewrite length_app. simpl. lia. }
  rewrite resolveUsernames_first_unknown; [done| |done|done].
  intros name [x Hx]. by rewrite lookup_empty in Hx.
Qed.

(** X19: [validateAddMembers] sees its arguments with their leading ['@']
    removed only: for two argument lists that agree once every leading
    ['@'] is removed, the loop builds the same map from username to user
    id, the response is the same, and the user ids stored in the props are
    the same up to their order. *)
Theorem validateAddMembers_at_signs (w : World) (args args' : list string)
    (context : Context) :
  TrimLeftAt <$> args = TrimLeftAt <$> args' →
  resolveUsernames w ∅ args = resolveUsernames w ∅ args'
  ∧ (validateAddMembers w args context).2 = (validateAddMembers w args' context).2
  ∧ ∀ userIds userIds',
      (validateAddMembers w args context).1 !! "userIds" = Some (PStrings userIds) →
      (validateAddMembers w args' context).1 !! "userIds" = Some (PStrings userIds') →
      userIds ≡ₚ userIds'.
Proof.
  intros Heq.
  pose proof (resolveUsernames_trimmed w args args' ∅ Heq) as Hres.
  assert (validateAddMembers w args context = validateAddMembers w args' context) as Hsame.
  { unfold validateAddMembers.
    assert (length args = length args') as ->
      by (by rewrite <- (length_fmap TrimLeftAt args), Heq, length_fmap).
    by rewrite Hres. }
  split; [exact Hres|]. split; [by rewrite Hsame|].
  intros userIds userIds' H1 H2. rewrite Hsame in H1. rewrite H1 in H2.
  by injection H2 as ->.
Qed.

(** X20: after a [validateAddMembers] that lets the command through, the
    props hold under "userIds" one user id for every distinct username
    (leading ['@'] removed) among the arguments: as many ids as there are
    distinct usernames, each the id of a user named by an argument, and the
    id of every user named. *)
Theorem validateAddMembers_distinct_usernames (w : World) (args : list string)
    (context : Context) (props : gmap string PropValue) :
  validateAddMembers w args context = (props, None) →
  ∃ userIds,
    props = <["userIds" := PStrings userIds]> (Props context)
    ∧ length userIds = size (list_to_set (TrimLeftAt <$> args) : gset string)
    ∧ ∀ userId,
        userId ∈ userIds ↔
          ∃ arg, arg ∈ args ∧ GetUserByUsername w (TrimLeftAt arg) = Some userId.
Proof.
  unfold validateAddMembers. destruct (length args <? 1)%nat; [done|].
  destruct (resolveUsernames w ∅ args) as [m|name] eqn:Hres; [|done].
  intros [= <-]. exists (Values m). split; [done|].
  pose proof (resolveUsernames_inl _ _ _ _ Hres) as Hm.
  pose proof (resolveUsernames_inl_known _ _ _ _ Hres) as Hknown.
  assert (∀ name id, m !! name = Some id ↔
            (∃ arg, arg ∈ args ∧ TrimLeftAt arg = name)
            ∧ GetUserByUsername w name = Some id) as Hm'.
  { intros name id. rewrite (Hm name id), lookup_empty. naive_solver. }
  split.
  - unfold Values. rewrite length_fmap, length_map_to_list.
    rewrite <- size_dom. f_equal. apply set_eq. intros name.
    rewrite elem_of_dom, elem_of_list_to_set, list_elem_of_fmap. split.
    + intros [id (Harg & _)%Hm']. destruct Harg as (arg & ? & ?). by exists arg.
    + intros (arg & -> & Harg).
      destruct (Hknown arg Harg) as [[x Hx]|[id Hid]]; [by rewrite lookup_empty in Hx|].
      exists id. apply Hm'. split; [by exists arg|done].
  - intros userId. unfold Values. rewrite list_elem_of_fmap. split.
    + intros ([name id] & -> & Hin). apply elem_of_map_to_list in Hin.
      apply Hm' in Hin as [(arg & Harg & <-) Hid]. by exists arg.
    + intros (arg & Harg & Hid). exists (TrimLeftAt arg, userId). split; [done|].
      apply elem_of_map_to_list, Hm'. split; [by exists arg|done].
Qed.

(** Adding [u-carol] twice and [u-alice] again appends [u-carol] once. *)
Lemma addStandupMembers_appends_new_witness :
  ∃ w',
    @addStandupMembers Ref.externals Ref.world1 ["u-carol"; "u-alice"; "u-carol"]
      "town-square" = (w', None)
    ∧ @GetStandupConfig Ref.externals w' "town-square"
      = inl (Some (with_Members Ref.config0 ["u-alice"; "u-bob"; "u-carol"])).
Proof.
  destruct (@addStandupMembers_appends_new Ref.externals Ref.world1 "town-square"
              Ref.config0 ["u-carol"; "u-alice"; "u-carol"])
    as (w' & Hadd & Hget & _);
    [vm_compute; reflexivity|reflexivity|reflexivity
    |vm_compute; reflexivity|vm_compute; reflexivity|].
  exists w'. split; [exact Hadd|]. rewrite Hget. vm_compute. reflexivity.
Defined.

(** A store that refuses writes is left as it was. *)
Lemma addStandupMembers_error_no_write_witness :
  (@addStandupMembers Ref.externals Ref.world_readonly ["u-carol"] "town-square").1
  = Ref.world_readonly.
Proof.
  apply (@addStandupMembers_error_no_write Ref.externals Ref.world_readonly _
           ["u-carol"] "town-square" "store is read-only").
  vm_compute. reflexivity.
Defined.

(** Without config, [u-alice] and [u-carol] join the channel and the
    command reports an error. *)
Lemma executeAddMembers_not_configured_witness :
  ∃ w',
    @executeAddMembers Ref.externals Ref.world0 [] Ref.context_add
    = Returns
        (w', SendEphemeralText
               "Error occurred while adding standup members: standup is not configured for this channel")
    ∧ ("town-square", "u-carol") ∈ channelMembers w'.
Proof.
  eexists. split.
  - apply (@executeAddMembers_not_configured Ref.externals Ref.world0 [] Ref.context_add
             ["u-alice"; "u-bob"; "u-carol"]); reflexivity.
  - apply (bool_decide_unpack _). vm_compute. reflexivity.
Defined.

(** One known username passes. *)
Lemma validateAddMembers_passes_iff_witness :
  (validateAddMembers Ref.world0 ["@alice"] Ref.context0).2 = None.
Proof.
  apply (proj2 (validateAddMembers_passes_iff Ref.world0 ["@alice"] Ref.context0)).
  split; [discriminate|].
  apply Forall_forall. apply (bool_decide_unpack _). vm_compute. reflexivity.
Defined.

(** [ghost] is reported, though [alice] before and [bob] after are known. *)
Lemma validateAddMembers_first_unknown_witness :
  validateAddMembers Ref.world0 ["@alice"; "@ghost"; "bob"] Ref.context0
  = (∅, Some (SendEphemeralText "Couldn't find user with username: ghost")).
Proof.
  apply (validateAddMembers_first_unknown Ref.world0 ["@alice"] ["bob"] "@ghost"
           Ref.context0).
  - apply Forall_forall. apply (bool_decide_unpack _). vm_compute. reflexivity.
  - vm_compute. reflexivity.
Defined.

(** Mentions and plain usernames are the same to the validation. *)
Lemma validateAddMembers_at_signs_witness :
  (validateAddMembers Ref.world0 ["@alice"; "bob"] Ref.context0).2
  = (validateAddMembers Ref.world0 ["alice"; "@@bob"] Ref.context0).2.
Proof.
  apply (validateAddMembers_at_signs Ref.world0 ["@alice"; "bob"] ["alice"; "@@bob"]
           Ref.context0).
  reflexivity.
Defined.

(** Three arguments naming two users give two user ids. *)
Lemma validateAddMembers_distinct_usernames_witness :
  ∃ userIds,
    (validateAddMembers Ref.world0 ["@alice"; "alice"; "bob"] Ref.context0).1
    = <["userIds" := PStrings userIds]> (Props Ref.context0)
    ∧ length userIds = 2%nat.
Proof.
  destruct (validateAddMembers_distinct_usernames Ref.world0 ["@alice"; "alice"; "bob"]
              Ref.context0 _ eq_refl) as (userIds & Hprops & Hlen & _).
  exists userIds. split; [exact Hprops|]. rewrite Hlen. vm_compute. reflexivity.
Defined.

(** * Further properties of the report command *)

Section ReportMore.
Context {E : Externals} {N : Notification}.

(** The loop over the date arguments writes the parsed dates at the head
    of the array, in order, and never past its end. *)
Lemma parseDates_parsed (ok : list string) (ds : list OTime) :
  Forall2 (λ arg date, ParseDate arg = Some date) ok ds →
  ∀ (filled : list OTime) (n : nat) (rest : list string),
    (length ok ≤ n)%nat →
    parseDates (filled ++ replicate n emptyTime) (length filled) (ok ++ rest)
    = parseDates ((filled ++ ds) ++ replicate (n - length ds) emptyTime)
        (length (filled ++ ds)) rest.
Proof.
  induction 1 as [|arg date ok ds Harg _ IH]; intros filled n rest Hlen; simpl.
  - by rewrite app_nil_r, Nat.sub_0_r.
  - rewrite Harg. simpl in Hlen. destruct n as [|n]; [lia|].
    replace (length filled) with (length filled + 0)%nat at 1 by lia.
    rewrite insert_app_r. simpl.
    replace (filled ++ date :: replicate n emptyTime)%list
      with ((filled ++ [date]) ++ replicate n emptyTime)%list
      by (by rewrite <- app_assoc).
    replace (S (length filled)) with (length (filled ++ [date])%list)
      by (rewrite length_app; simpl; lia).
    rewrite IH by lia. by rewrite <- !app_assoc.
Qed.

Lemma defaultReportArgs_many (w : World) (standupConfig : StandupConfig)
    (args : list string) :
  (2 ≤ length args)%nat → defaultReportArgs w standupConfig args = args.
Proof. destruct args as [|a [|b rest]]; simpl; [lia|lia|done]. Qed.

(** Validation of dates followed by a visibility, all dates parsing. *)
Lemma validateCommandStandup_parsed (w : World) (context : Context)
    (standupConfig : StandupConfig) (dateArgs : list string) (visibility : string)
    (dates : list OTime) :
  GetStandupConfig w (model.ChannelId (CommandArgs context)) = inl (Some standupConfig) →
  dateArgs ≠ [] →
  Forall2 (λ arg date, ParseDate arg = Some date) dateArgs dates →
  validateCommandStandup w (dateArgs ++ [visibility]) context
  = validated context (ToLower visibility) dates.
Proof.
  intros Hcfg Hne Hparse. unfold validateCommandStandup, validated. rewrite Hcfg.
  rewrite defaultReportArgs_many
    by (rewrite length_app; destruct dateArgs; [done|simpl; lia]).
  rewrite last_snoc. simpl.
  rewrite length_app. simpl.
  replace (length dateArgs + 1 - 1)%nat with (length dateArgs) by lia.
  rewrite take_app_length.
  pose proof (parseDates_parsed dateArgs dates Hparse [] (length dateArgs + 1)%nat [])
    as Hp.
  rewrite app_nil_r in Hp. simpl in Hp. rewrite Hp by lia. simpl.
  by rewrite take_app_length.
Qed.


Lemma runCommand_report_validated (w : World) (args : list string) (context : Context)
    (visibility : string) (dates : list OTime) :
  validateCommandStandup w args context = validated context visibility dates →
  runCommand validateCommandStandup executeCommandStandup w args context
  = Returns
      (foldl (λ w' date,
                (SendStandupReport w' [model.ChannelId (CommandArgs context)] date
                   visibility (model.UserId (CommandArgs context)) false).1)
             w dates,
       model.mkCommandResponse model.COMMAND_RESPONSE_TYPE_EPHEMERAL
         "Standup reports generated").
Proof.
  intros Hvalidate. unfold runCommand. rewrite Hvalidate. unfold validated.
  unfold executeCommandStandup. simpl.
  rewrite lookup_insert_ne by done. rewrite lookup_insert_eq.
  rewrite lookup_insert_eq. by rewrite sendReports_foldl.
Qed.

(** X21: with one or more dates followed by a last argument, in a channel
    with a standup config, [validateCommandStandup] stores the last
    argument, lowered and not checked against the visibility tokens, as the
    visibility, and the dates parsed from the other arguments, in order,
    whenever they all parse. *)
Theorem validateCommandStandup_dates_then_visibility (w : World) (context : Context)
    (standupConfig : StandupConfig) (dateArgs : list string) (visibility : string)
    (dates : list OTime) :
  GetStandupConfig w (model.ChannelId (CommandArgs context)) = inl (Some standupConfig) →
  dateArgs ≠ [] →
  Forall2 (λ arg date, ParseDate arg = Some date) dateArgs dates →
  validateCommandStandup w (dateArgs ++ [visibility]) context
  = validated context (ToLower visibility) dates.
Proof. apply validateCommandStandup_parsed. Qed.


(** X23: the report command run through both phases, with dates that all
    parse and a last argument: every date gets its [SendStandupReport], in
    the order given, for the channel and the user of the command, with the
    lowered last argument as visibility, and the response is "Standup
    reports generated". *)
Theorem report_command_sends_each_date (w : World) (context : Context)
    (standupConfig : StandupConfig) (dateArgs : list string) (visibility : string)
    (dates : list OTime) :
  GetStandupConfig w (model.ChannelId (CommandArgs context)) = inl (Some standupConfig) →
  dateArgs ≠ [] →
  Forall2 (λ arg date, ParseDate arg = Some date) dateArgs dates →
  runCommand validateCommandStandup executeCommandStandup w
    (dateArgs ++ [visibility]) context
  = Returns
      (foldl (λ w' date,
                (SendStandupReport w' [model.ChannelId (CommandArgs context)] date
                   (ToLower visibility) (model.UserId (CommandArgs context)) false).1)
             w dates,
       model.mkCommandResponse model.COMMAND_RESPONSE_TYPE_EPHEMERAL
         "Standup reports generated").
Proof.
  intros Hcfg Hne Hparse. apply runCommand_report_validated.
  by apply (validateCommandStandup_parsed w context standupConfig).
Qed.


(** X25: the report command run through both phases with no argument, in a
    channel with a standup config: one report is sent, for today's date in
    the timezone of the config, private, to the user of the command. *)
Theorem report_command_no_argument (w : World) (context : Context)
    (standupConfig : StandupConfig) (date : OTime) :
  GetStandupConfig w (model.ChannelId (CommandArgs context)) = inl (Some standupConfig) →
  ToLower ReportVisibilityPrivate = ReportVisibilityPrivate →
  ParseDate (FormatDate (Now (clock w) (Timezone standupConfig))) = Some date →
  runCommand validateCommandStandup executeCommandStandup w [] context
  = Returns
      ((SendStandupReport w [model.ChannelId (CommandArgs context)] date
          ReportVisibilityPrivate (model.UserId (CommandArgs context)) false).1,
       model.mkCommandResponse model.COMMAND_RESPONSE_TYPE_EPHEMERAL
         "Standup reports generated").
Proof.
  intros Hcfg Hprivate Hdate.
  rewrite (runCommand_report_validated w [] context ReportVisibilityPrivate [date]);
    [done|].
  unfold validateCommandStandup, validated. rewrite Hcfg. simpl.
  rewrite Hdate. simpl. by rewrite Hprivate.
Qed.

End ReportMore.

(** Two dates and a visibility in capitals. *)
Lemma validateCommandStandup_dates_then_visibility_witness :
  @validateCommandStandup Ref.externals Ref.world1
    ["30-12-2023"; "01-01-2024"; "Public"] Ref.context0
  = validated Ref.context0 "public" [Ref.day 2023 12 30; Ref.day 2024 1 1].
Proof.
  apply (@validateCommandStandup_dates_then_visibility Ref.externals Ref.world1
           Ref.context0 (deduplicated Ref.config0) ["30-12-2023"; "01-01-2024"] "Public"
           [Ref.day 2023 12 30; Ref.day 2024 1 1]).
  - vm_compute. reflexivity.
  - discriminate.
  - repeat constructor; vm_compute; reflexivity.
Defined.


(** Two reports are delivered, the later date last. *)
Lemma report_command_sends_each_date_witness :
  ∃ w',
    @runCommand (@validateCommandStandup Ref.externals)
      (@executeCommandStandup Ref.notification) Ref.world1
      ["30-12-2023"; "01-01-2024"; "Public"] Ref.context0
    = Returns (w', model.mkCommandResponse model.COMMAND_RESPONSE_TYPE_EPHEMERAL
                     "Standup reports generated")
    ∧ posts w' = [("town-square", "public report for 20240101");
                  ("town-square", "public report for 20231230")].
Proof.
  eexists. split.
  - apply (@report_command_sends_each_date Ref.externals Ref.notification Ref.world1
             Ref.context0 (deduplicated Ref.config0) ["30-12-2023"; "01-01-2024"] "Public"
             [Ref.day 2023 12 30; Ref.day 2024 1 1]).
    + vm_compute. reflexivity.
    + discriminate.
    + repeat constructor; vm_compute; reflexivity.
  - vm_compute. reflexivity.
Defined.


(** At 20:00 UTC on 2024-01-01, the report is that of 2024-01-02 in an
    Asia/Kolkata channel. *)
Lemma report_command_no_argument_witness :
  ∃ w',
    @runCommand (@validateCommandStandup Ref.externals)
      (@executeCommandStandup Ref.notification) Ref.world1 [] Ref.context0
    = Returns (w', model.mkCommandResponse model.COMMAND_RESPONSE_TYPE_EPHEMERAL
                     "Standup reports generated")
    ∧ posts w' = [("town-square", "private report for 20240102")].
Proof.
  eexists. split.
  - apply (@report_command_no_argument Ref.externals Ref.notification Ref.world1
             Ref.context0 (deduplicated Ref.config0) (Ref.day 2024 1 2)).
    + vm_compute. reflexivity.
    + reflexivity.
    + vm_compute. reflexivity.
  - vm_compute. reflexivity.
Defined.

(** * The add-members command, both phases *)

Section AddMembersEndToEnd.
Context {E : Externals}.

(** The user ids that the validation stores. *)
Lemma resolveUsernames_values (w : World) (args : list string) (m : gmap string string) :
  resolveUsernames w ∅ args = inl m →
  ∀ userId,
    userId ∈ Values m ↔
      ∃ arg, arg ∈ args ∧ GetUserByUsername w (TrimLeftAt arg) = Some userId.
Proof.
  intros Hres userId.
  pose proof (resolveUsernames_inl _ _ _ _ Hres) as Hm.
  unfold Values. rewrite list_elem_of_fmap. split.
  - intros ([name id] & -> & Hin). apply elem_of_map_to_list in Hin.
    apply Hm in Hin as [Hin|(_ & (arg & Harg & <-) & Hid)];
      [by rewrite lookup_empty in Hin|].
    by exists arg.
  - intros (arg & Harg & Hid). exists (TrimLeftAt arg, userId). split; [done|].
    apply elem_of_map_to_list, Hm. right. rewrite lookup_empty.
    split; [done|]. split; [by exists arg|done].
Qed.

(** X26: the add-members command run through both phases, with usernames
    that all resolve, in a channel whose stored config carries the
    channel's own id (the store accepting the write, the two times of day
    surviving their JSON encoding): the users the server accepts are added
    to the channel; they, and not the users the server refused, are
    appended to the members of the persisted config, without duplicates;
    and the response is the summary of the two groups. *)
Theorem add_members_command_end_to_end (w : World) (args : list string)
    (context : Context) (standupConfig : StandupConfig) :
  let channelID := model.ChannelId (CommandArgs context) in
  args ≠ [] →
  (∀ arg, arg ∈ args → is_Some (GetUserByUsername w (TrimLeftAt arg))) →
  GetStandupConfig w channelID = inl (Some standupConfig) →
  ChannelId standupConfig = channelID →
  kvSetErr w (configKey channelID) = None →
  OTime_UnmarshalJSON (OTime_MarshalJSON (WindowOpenTime standupConfig))
  = Some (WindowOpenTime standupConfig) →
  OTime_UnmarshalJSON (OTime_MarshalJSON (WindowCloseTime standupConfig))
  = Some (WindowCloseTime standupConfig) →
  ∃ userIds w',
    runCommand validateAddMembers executeAddMembers w args context
    = Returns (w', model.mkCommandResponse model.COMMAND_RESPONSE_TYPE_EPHEMERAL
                     (buildSuccessMessage (accepted w channelID userIds)
                                          (refused w channelID userIds)))
    ∧ (∀ userId,
         userId ∈ userIds ↔
           ∃ arg, arg ∈ args ∧ GetUserByUsername w (TrimLeftAt arg) = Some userId)
    ∧ channelMembers w'
      = list_to_set (pair channelID <$> accepted w channelID userIds) ∪ channelMembers w
    ∧ GetStandupConfig w' channelID
      = inl (Some (with_Members standupConfig
                     (UniqString (Members standupConfig
                                  ++ accepted w channelID userIds)%list))).
Proof.
  intros channelID Hargs Hknown Hcfg Hid Hset Ho Hc.
  pose proof (GetStandupConfig_inl_kvGetErr _ _ _ Hcfg) as Hget.
  destruct (resolveUsernames_total w args ∅ Hknown) as [m Hm].
  exists (Values m). eexists. split; [|split; [by apply resolveUsernames_values|]].
  - unfold runCommand, validateAddMembers.
    assert ((length args <? 1)%nat = false) as -> by (by destruct args).
    rewrite Hm. unfold executeAddMembers. simpl. rewrite lookup_insert_eq.
    fold channelID. rewrite addChannelMembers_spec.
    rewrite (addStandupMembers_ok _ _ _ standupConfig); [reflexivity|exact Hcfg|].
    rewrite Hid. exact Hset.
  - split; [reflexivity|].
    rewrite Hid. apply GetStandupConfig_stored; [done|by rewrite lookup_insert_eq|done|done].
Qed.

End AddMembersEndToEnd.

(** Alice, bob and carol all resolve in a channel with a config. *)
Lemma add_members_command_end_to_end_witness :
  ∃ userIds w',
    runCommand validateAddMembers (@executeAddMembers Ref.externals) Ref.world1
      ["@alice"; "bob"; "@@carol"; "alice"] Ref.context0
    = Returns (w', model.mkCommandResponse model.COMMAND_RESPONSE_TYPE_EPHEMERAL
                     (buildSuccessMessage (accepted Ref.world1 "town-square" userIds)
                                          (refused Ref.world1 "town-square" userIds)))
    ∧ @GetStandupConfig Ref.externals w' "town-square"
      = inl (Some (with_Members Ref.config0
                     (UniqString (Members Ref.config0
                                  ++ accepted Ref.world1 "town-square" userIds)%list))).
Proof.
  destruct (@add_members_command_end_to_end Ref.externals Ref.world1
              ["@alice"; "bob"; "@@carol"; "alice"] Ref.context0 Ref.config0)
    as (userIds & w' & Hrun & _ & _ & Hconfig).
  - discriminate.
  - apply Forall_forall. apply (bool_decide_unpack _). vm_compute. reflexivity.
  - vm_compute. reflexivity.
  - reflexivity.
  - reflexivity.
  - vm_compute. reflexivity.
  - vm_compute. reflexivity.
  - exists userIds, w'. split; [exact Hrun|exact Hconfig].
Defined.

(** * Saving a config and reading it back *)

Section ConfigRoundTrip.
Context {E : Externals}.

#[local] Arguments decode_strings : simpl never.
#[local] Arguments encode_strings : simpl never.



End ConfigRoundTrip.



(** * The add-members command: what is stored, tried and answered *)

Lemma string_app_nil_r (s : string) : s +:+ "" = s.
Proof.
  induction s as [|c s IH]; [done|].
  change (String c (s +:+ "") = String c s). by rewrite IH.
Qed.

(** As many user ids are stored as there are distinct usernames. *)
Lemma resolveUsernames_size (w : World) (args : list string) (m : gmap string string) :
  resolveUsernames w ∅ args = inl m →
  length (Values m) = size (list_to_set (TrimLeftAt <$> args) : gset string).
Proof.
  intros Hres.
  pose proof (resolveUsernames_inl _ _ _ _ Hres) as Hm.
  pose proof (resolveUsernames_inl_known _ _ _ _ Hres) as Hknown.
  unfold Values. rewrite length_fmap, length_map_to_list, <- size_dom.
  f_equal. apply set_eq. intros name.
  rewrite elem_of_dom, elem_of_list_to_set, list_elem_of_fmap. split.
  - intros [id Hid]. apply Hm in Hid as [Hid|(_ & (arg & Harg & <-) & _)];
      [by rewrite lookup_empty in Hid|].
    by exists arg.
  - intros (arg & -> & Harg).
    destruct (Hknown arg Harg) as [[x Hx]|[id Hid]]; [by rewrite lookup_empty in Hx|].
    exists id. apply Hm. right. rewrite lookup_empty.
    split; [done|]. split; [by exists arg|done].
Qed.

Section AddMembersAnswer.
Context {E : Externals}.

(** C7 (as amended): the add-members command takes one or more usernames,
    optionally prefixed with ['@'].  When they all resolve, the validation
    stores one user id for every distinct username.  When one does not,
    the command ends at validation with "Couldn't find user with username:"
    and the first such username: nobody is added and the world is as it
    was.  The execution tries to add every user id to the channel: a
    failure for one does not keep the others from being added, and the
    users come back split into those added and those refused.  When the
    update of the standup config succeeds, the response is ephemeral and
    its text is the number of users added followed by " users added
    successfully." and, when some were refused, by " Following users
    couldn't be added: " and the ids of those refused, separated by
    commas. *)
Theorem add_members_partial_success (w : World) (args : list string) (context : Context) :
  ((1 ≤ length args)%nat →
   (∀ arg, arg ∈ args → is_Some (GetUserByUsername w (TrimLeftAt arg))) →
   ∃ userIds,
     validateAddMembers w args context
     = (<["userIds" := PStrings userIds]> (Props context), None)
     ∧ length userIds = size (list_to_set (TrimLeftAt <$> args) : gset string)
     ∧ ∀ userId,
         userId ∈ userIds ↔
           ∃ arg, arg ∈ args ∧ GetUserByUsername w (TrimLeftAt arg) = Some userId)
  ∧ (∀ pre bad post,
       args = (pre ++ bad :: post)%list →
       (∀ arg, arg ∈ pre → is_Some (GetUserByUsername w (TrimLeftAt arg))) →
       GetUserByUsername w (TrimLeftAt bad) = None →
       runCommand validateAddMembers executeAddMembers w args context
       = Returns (w, SendEphemeralText
                       ("Couldn't find user with username: " +:+ TrimLeftAt bad)))
  ∧ (∀ userIds channelID,
       addChannelMembers w userIds channelID
       = (with_channelMembers w
            (list_to_set (pair channelID <$> accepted w channelID userIds)
             ∪ channelMembers w),
          accepted w channelID userIds,
          refused w channelID userIds))
  ∧ (∀ userIds w2,
       let channelID := model.ChannelId (CommandArgs context) in
       let addedUsers := accepted w channelID userIds in
       let notAddedUsers := refused w channelID userIds in
       Props context !! "userIds" = Some (PStrings userIds) →
       addStandupMembers (addChannelMembers w userIds channelID).1.1
         addedUsers channelID = (w2, None) →
       executeAddMembers w args context
       = Returns
           (w2,
            model.mkCommandResponse model.COMMAND_RESPONSE_TYPE_EPHEMERAL
              ((pretty (length addedUsers) +:+ " users added successfully.")
               +:+ match notAddedUsers with
                   | [] => ""
                   | _ :: _ =>
                       " Following users couldn't be added: "
                       +:+ String.concat ", " notAddedUsers
                       +:+ String "010"%char
                             "Make sure these users users exist on the system."
                   end))).
Proof.
  split; [|split; [|split]].
  - intros Hlen Hknown. unfold validateAddMembers.
    destruct (Nat.ltb_spec (length args) 1); [lia|].
    destruct (resolveUsernames_total w args ∅ Hknown) as [m Hm].
    exists (Values m). rewrite Hm. split; [done|].
    split; [by apply (resolveUsernames_size w)|by apply resolveUsernames_values].
  - intros pre bad post -> Hpre Hbad. unfold runCommand, validateAddMembers.
    assert ((length (pre ++ bad :: post)%list <? 1)%nat = false) as ->
      by (apply Nat.ltb_ge; rewrite length_app; simpl; lia).
    rewrite resolveUsernames_first_unknown; [done| |done|done].
    intros name [x Hx]. by rewrite lookup_empty in Hx.
  - apply addChannelMembers_spec.
  - intros userIds w2 channelID addedUsers notAddedUsers Hprops.
    unfold executeAddMembers. rewrite Hprops. fold channelID.
    rewrite addChannelMembers_spec. simpl. fold addedUsers.
    intros ->. unfold buildSuccessMessage, Join. subst notAddedUsers.
    destruct (refused w channelID userIds) as [|u rest].
    + change (0 <? length [])%nat with false. cbv iota.
      by rewrite string_app_nil_r.
    + done.
Qed.

End AddMembersAnswer.

(** Of alice, bob and carol, bob is refused by the server: the two others
    are added and the response says so; with a username nobody has, the
    command ends and the world is as it was. *)
Lemma add_members_partial_success_witness :
  (∃ userIds,
     validateAddMembers Ref.world1 ["@alice"; "bob"; "@@carol"; "alice"] Ref.context0
     = (<["userIds" := PStrings userIds]> (Props Ref.context0), None)
     ∧ length userIds = 3%nat
     ∧ "u-carol" ∈ userIds)
  ∧ runCommand validateAddMembers (@executeAddMembers Ref.externals) Ref.world1
      ["@alice"; "@ghost"; "bob"] Ref.context0
    = Returns (Ref.world1, SendEphemeralText "Couldn't find user with username: ghost")
  ∧ (∃ w2,
       @executeAddMembers Ref.externals Ref.world1 [] Ref.context_add
       = Returns
           (w2,
            model.mkCommandResponse model.COMMAND_RESPONSE_TYPE_EPHEMERAL
              ("2 users added successfully. Following users couldn't be added: u-bob"
               +:+ String "010"%char "Make sure these users users exist on the system."))
       ∧ ("town-square", "u-alice") ∈ channelMembers w2
       ∧ ("town-square", "u-carol") ∈ channelMembers w2
       ∧ ("town-square", "u-bob") ∉ channelMembers w2).
Proof.
  split; [|split].
  - destruct (@add_members_partial_success Ref.externals Ref.world1
                ["@alice"; "bob"; "@@carol"; "alice"] Ref.context0)
      as (Hvalidate & _).
    destruct Hvalidate as (userIds & Hprops & Hlen & Hids).
    + simpl. lia.
    + apply Forall_forall. apply (bool_decide_unpack _). vm_compute. reflexivity.
    + exists userIds. split; [exact Hprops|]. split.
      * rewrite Hlen. vm_compute. reflexivity.
      * apply Hids. exists "@@carol". split; [|reflexivity].
        apply (bool_decide_unpack _). vm_compute. reflexivity.
  - destruct (@add_members_partial_success Ref.externals Ref.world1
                ["@alice"; "@ghost"; "bob"] Ref.context0)
      as (_ & Hunknown & _).
    apply (Hunknown ["@alice"] "@ghost" ["bob"]); [reflexivity| |reflexivity].
    apply Forall_forall. apply (bool_decide_unpack _). vm_compute. reflexivity.
  - destruct (@add_members_partial_success Ref.externals Ref.world1 [] Ref.context_add)
      as (_ & _ & _ & Hexecute).
    eexists. split.
    + refine (eq_trans (Hexecute ["u-alice"; "u-bob"; "u-carol"] _ eq_refl eq_refl) _).
      vm_compute. reflexivity.
    + split; [|split]; apply (bool_decide_unpack _); vm_compute; reflexivity.
Defined.
